(** * Schedule-generation core of [tenant_power.py]

    A shallow embedding of the weekday, time and SleepInfo helpers of
    [tenant_power.py] (kube-green tenant power schedules).

    Python strings are modelled as lists of Unicode code points ([pystr]).
    Python exceptions are the left branch of a sum type ([res]). *)

From Stdlib Require Import ZArith List String Ascii Bool Lia.
Import ListNotations.
Open Scope Z_scope.

(** ** Python strings and exceptions *)

Definition pystr := list Z.

(** ASCII string literal to code points (used to write literals). *)
Fixpoint str_of (s : string) : pystr :=
  match s with
  | EmptyString => []
  | String c r => Z.of_nat (nat_of_ascii c) :: str_of r
  end.

Fixpoint pystr_eqb (a b : pystr) : bool :=
  match a, b with
  | [], [] => true
  | x :: a', y :: b' => (x =? y) && pystr_eqb a' b'
  | _, _ => false
  end.

Inductive exn := ValueError | SystemExit (code : Z).

Definition res (A : Type) := (exn + A)%type.

Definition ret {A} (a : A) : res A := inr a.
Definition raise {A} (e : exn) : res A := inl e.
Definition bind {A B} (m : res A) (k : A -> res B) : res B :=
  match m with inl e => inl e | inr a => k a end.

Notation "x <- m ;; k" := (bind m (fun x => k))
  (at level 61, m at next level, right associativity).

(** ** Character classes of Python 3.11 (Unicode 14.0) *)

(** Code points for which [str.isspace] holds; also the class [\s] of [re]. *)
Definition whitespace_table : list Z :=
  [9; 10; 11; 12; 13; 28; 29; 30; 31; 32; 133; 160; 5760; 8192; 8193; 8194;
   8195; 8196; 8197; 8198; 8199; 8200; 8201; 8202; 8232; 8233; 8239; 8287;
   12288].

Definition is_space (c : Z) : bool := existsb (Z.eqb c) whitespace_table.

(** First code point (digit zero) of each run of ten decimal digits
    (category Nd): the class [\d] of [re] and the digits [int] accepts. *)
Definition nd_zero_table : list Z :=
  [48; 1632; 1776; 1984; 2406; 2534; 2662; 2790; 2918; 3046; 3174; 3302;
   3430; 3558; 3664; 3792; 3872; 4160; 4240; 6112; 6160; 6470; 6608; 6784;
   6800; 6992; 7088; 7232; 7248; 42528; 43216; 43264; 43472; 43504; 43600;
   44016; 65296; 66720; 68912; 69734; 69872; 69942; 70096; 70384; 70736;
   70864; 71248; 71360; 71472; 71904; 72016; 72784; 73040; 73120; 92768;
   92864; 93008; 120782; 120792; 120802; 120812; 120822; 123200; 123632;
   125264; 130032].

Definition digit_value (c : Z) : option Z :=
  match find (fun z => (z <=? c) && (c <? z + 10)) nd_zero_table with
  | Some z => Some (c - z)
  | None => None
  end.

Definition is_digit (c : Z) : bool :=
  match digit_value c with Some _ => true | None => false end.

(** [str.lower] and NFD decomposition, on Latin-1 (U+0000..U+00FF); other
    code points are left unchanged by this model. *)
Definition py_lower_char (c : Z) : Z :=
  if ((65 <=? c) && (c <=? 90)) || ((192 <=? c) && (c <=? 222) && negb (c =? 215))
  then c + 32 else c.

Definition py_lower (s : pystr) : pystr := map py_lower_char s.

Definition nfd_latin1 : list (Z * (Z * Z)) :=
  [(192,(65,768)); (193,(65,769)); (194,(65,770)); (195,(65,771));
   (196,(65,776)); (197,(65,778)); (199,(67,807)); (200,(69,768));
   (201,(69,769)); (202,(69,770)); (203,(69,776)); (204,(73,768));
   (205,(73,769)); (206,(73,770)); (207,(73,776)); (209,(78,771));
   (210,(79,768)); (211,(79,769)); (212,(79,770)); (213,(79,771));
   (214,(79,776)); (217,(85,768)); (218,(85,769)); (219,(85,770));
   (220,(85,776)); (221,(89,769)); (224,(97,768)); (225,(97,769));
   (226,(97,770)); (227,(97,771)); (228,(97,776)); (229,(97,778));
   (231,(99,807)); (232,(101,768)); (233,(101,769)); (234,(101,770));
   (235,(101,776)); (236,(105,768)); (237,(105,769)); (238,(105,770));
   (239,(105,776)); (241,(110,771)); (242,(111,768)); (243,(111,769));
   (244,(111,770)); (245,(111,771)); (246,(111,776)); (249,(117,768));
   (250,(117,769)); (251,(117,770)); (252,(117,776)); (253,(121,769));
   (255,(121,776))].

Definition nfd_char (c : Z) : list Z :=
  match find (fun e => fst e =? c) nfd_latin1 with
  | Some (_, (b, m)) => [b; m]
  | None => [c]
  end.

(** Category Mn, on the Combining Diacritical Marks block. *)
Definition is_mark_nonspacing (c : Z) : bool := (768 <=? c) && (c <=? 879).

(** [_strip_accents]: NFD, then drop the Mn code points. *)
Definition _strip_accents (s : pystr) : pystr :=
  filter (fun c => negb (is_mark_nonspacing c)) (flat_map nfd_char s).

(** ** Python string operations *)

(** [str.strip()] *)
Definition lstrip (s : pystr) : pystr :=
  (fix go s := match s with
               | c :: r => if is_space c then go r else s
               | [] => []
               end) s.

Definition strip (s : pystr) : pystr := rev (lstrip (rev (lstrip s))).

(** [str.split(sep)] for a one-character separator: never an empty list. *)
Fixpoint split_on (sep : Z) (s : pystr) : list pystr :=
  match s with
  | [] => [[]]
  | c :: r =>
      let parts := split_on sep r in
      if c =? sep then [] :: parts
      else match parts with
           | p :: ps => (c :: p) :: ps
           | [] => [[c]]
           end
  end.

(** [sep in s] together with [s.split(sep, 1)]. *)
Fixpoint split1 (sep : Z) (s : pystr) : option (pystr * pystr) :=
  match s with
  | [] => None
  | c :: r =>
      if c =? sep then Some ([], r)
      else match split1 sep r with
           | Some (a, b) => Some (c :: a, b)
           | None => None
           end
  end.

(** [sep.join(parts)] *)
Fixpoint join (sep : Z) (parts : list pystr) : pystr :=
  match parts with
  | [] => []
  | [p] => p
  | p :: ps => p ++ sep :: join sep ps
  end.

(** [s.replace(" ", "")] *)
Definition remove_spaces (s : pystr) : pystr := filter (fun c => negb (c =? 32)) s.

(** [int(s)] in base 10: surrounding whitespace, an optional sign, digits
    with single underscores between them. *)
Fixpoint digits_acc (acc : Z) (l : pystr) : option Z :=
  match l with
  | [] => Some acc
  | c :: r =>
      match digit_value c with
      | Some d => digits_acc (acc * 10 + d) r
      | None =>
          if c =? 95 then
            match r with
            | c' :: r' =>
                match digit_value c' with
                | Some d => digits_acc (acc * 10 + d) r'
                | None => None
                end
            | [] => None
            end
          else None
      end
  end.

Definition py_int (s : pystr) : res Z :=
  let t := strip s in
  let '(sign, body) :=
    match t with
    | 43 :: r => (1, r)
    | 45 :: r => (-1, r)
    | _ => (1, t)
    end in
  match body with
  | c :: r =>
      match digit_value c with
      | Some d =>
          match digits_acc d r with
          | Some v => ret (sign * v)
          | None => raise ValueError
          end
      | None => raise ValueError
      end
  | [] => raise ValueError
  end.

(** [str(n)] *)
Fixpoint dec_digits (fuel : nat) (n : Z) (acc : pystr) : pystr :=
  match fuel with
  | O => acc
  | S f =>
      let acc' := (48 + n mod 10) :: acc in
      if n <? 10 then acc' else dec_digits f (n / 10) acc'
  end.

Definition py_str (n : Z) : pystr :=
  if n <? 0 then 45 :: dec_digits (S (Z.to_nat (- n))) (- n) []
  else dec_digits (S (Z.to_nat n)) n [].

(** [list(range(a, b))] *)
Definition range (a b : Z) : list Z :=
  map (fun i => a + Z.of_nat i) (seq 0 (Z.to_nat (b - a))).

Definition memZ (n : Z) (l : list Z) : bool := existsb (Z.eqb n) l.

(** The [seen]/[out] loop that drops duplicates, keeping first occurrences. *)
Fixpoint dedup_from (seen : list Z) (l : list Z) : list Z :=
  match l with
  | [] => []
  | n :: r => if memZ n seen then dedup_from seen r else n :: dedup_from (n :: seen) r
  end.

Definition dedup (l : list Z) : list Z := dedup_from [] l.

(** ** Weekday helpers *)

(** [re.fullmatch(r"\s*\d(?:\s*[-,]\s*\d)*\s*", raw)].  The classes [\s],
    [\d] and [[-,]] are disjoint, so a deterministic scan decides it. *)
Inductive num_state := NStart | NDigit | NSep.

Fixpoint numeric_scan (st : num_state) (s : pystr) : bool :=
  match s with
  | [] => match st with NDigit => true | _ => false end
  | c :: r =>
      if is_space c then numeric_scan st r
      else if is_digit c then
        match st with NDigit => false | _ => numeric_scan NDigit r end
      else if (c =? 45) || (c =? 44) then
        match st with NDigit => numeric_scan NSep r | _ => false end
      else false
  end.

Definition numeric_form (raw : pystr) : bool := numeric_scan NStart raw.

(** [re.search(r"[A-Za-zÁÉÍÓÚáéíóúÑñ]", s)] *)
Definition is_regex_letter (c : Z) : bool :=
  ((65 <=? c) && (c <=? 90)) || ((97 <=? c) && (c <=? 122))
  || memZ c [193; 201; 205; 211; 218; 225; 233; 237; 243; 250; 209; 241].

Definition has_letter (s : pystr) : bool := existsb is_regex_letter s.

Definition DAYS_ES : list (pystr * Z) :=
  [(str_of "domingo", 0); (str_of "lunes", 1); (str_of "martes", 2);
   (str_of "miercoles", 3); (str_of "mi" ++ [233] ++ str_of "rcoles", 3);
   (str_of "jueves", 4); (str_of "viernes", 5); (str_of "sabado", 6);
   ([115; 225] ++ str_of "bado", 6)].

Definition day_lookup (k : pystr) : option Z :=
  match find (fun e => pystr_eqb (fst e) k) DAYS_ES with
  | Some (_, v) => Some v
  | None => None
  end.

(** [list(range(a, 7)) + list(range(0, b + 1))] when [b < a]. *)
Definition circular_range (a b : Z) : list Z :=
  if a <=? b then range a (b + 1) else range a 7 ++ range 0 (b + 1).

(** One comma-separated part of the name path of [human_weekdays_to_kube]. *)
Definition day_part (p : pystr) : res (list Z) :=
  match split1 45 p with
  | Some (a, b) =>
      match day_lookup a, day_lookup b with
      | Some start, Some end_ => ret (circular_range start end_)
      | _, _ => raise ValueError
      end
  | None =>
      match day_lookup p with
      | Some v => ret [v]
      | None => raise ValueError
      end
  end.

(** [nums.extend(...)] over the parts, stopping at the first exception. *)
Fixpoint extend_all (f : pystr -> res (list Z)) (parts : list pystr) : res (list Z) :=
  match parts with
  | [] => ret []
  | p :: ps => xs <- f p ;; ys <- extend_all f ps ;; ret (xs ++ ys)
  end.

Definition nonempty (s : pystr) : bool := match s with [] => false | _ => true end.

(** [human_weekdays_to_kube(s)]; [None] is Python's [None]. *)
Definition human_weekdays_to_kube (s : option pystr) : res pystr :=
  let raw := strip (match s with Some x => x | None => [] end) in
  match raw with
  | [] => ret (str_of "0-6")
  | _ =>
      if numeric_form raw then ret (remove_spaces raw)
      else
        let txt := _strip_accents (remove_spaces (py_lower raw)) in
        let parts := filter nonempty (split_on 44 txt) in
        nums <- extend_all day_part parts ;;
        ret (join 44 (map py_str (dedup nums)))
  end.

(** One chunk of [_expand_weekdays_str] (after [chunk.strip()]). *)
Definition expand_chunk (chunk : pystr) : res (list Z) :=
  match chunk with
  | [] => ret []
  | _ =>
      match split1 45 chunk with
      | Some (a, b) =>
          a' <- py_int a ;; b' <- py_int b ;;
          ret (circular_range a' b')
      | None => n <- py_int chunk ;; ret [n]
      end
  end.

(** [_expand_weekdays_str(raw)] *)
Definition _expand_weekdays_str (raw : pystr) : res (list Z) :=
  match raw with
  | [] => ret (range 0 7)
  | _ =>
      let s0 := strip raw in
      s <- (if has_letter s0 then human_weekdays_to_kube (Some s0) else ret s0) ;;
      tokens <- extend_all (fun chunk => expand_chunk (strip chunk)) (split_on 44 s) ;;
      ret (dedup tokens)
  end.

(** [_shift_weekdays_str(raw, shift)] *)
Definition _shift_weekdays_str (raw : pystr) (shift : Z) : res pystr :=
  let shift := shift mod 7 in
  lst <- _expand_weekdays_str raw ;;
  let shifted := map (fun n => (n + shift) mod 7) lst in
  ret (join 44 (map py_str (dedup shifted))).

(** The membership set a weekday specification denotes: the normalizer
    ([human_weekdays_to_kube]) followed by the expansion. *)
Definition weekday_members (s : option pystr) : res (list Z) :=
  w <- human_weekdays_to_kube s ;; _expand_weekdays_str w.

(** ** Time helpers *)

(** [hh, mm = map(int, s.split(":"))] followed by [time(hh, mm)], which
    raises [ValueError] outside 00:00..23:59. *)
Definition parse_hhmm (s : pystr) : res (Z * Z) :=
  match split_on 58 s with
  | [a; b] =>
      hh <- py_int a ;; mm <- py_int b ;;
      if (0 <=? hh) && (hh <=? 23) && (0 <=? mm) && (mm <=? 59)
      then ret (hh, mm) else raise ValueError
  | _ => raise ValueError
  end.

Definition two_digits (n : Z) : pystr := [48 + n / 10; 48 + n mod 10].

(** [dt.strftime("%H:%M")] of an instant whose minute of the day is [m]. *)
Definition strftime_hhmm (m : Z) : pystr := two_digits (m / 60) ++ 58 :: two_digits (m mod 60).

(** A time zone: the UTC offset in minutes ([utcoffset()]) of the local
    wall-clock time at a given local date (days since an epoch) and minute
    of the day. *)
Definition tzinfo := Z -> Z -> Z.

Definition ZoneUTC : tzinfo := fun _ _ => 0.

(** [ZoneInfo("America/Bogota")] (TZ_LOCAL): UTC-5 all year. *)
Definition ZoneBogota : tzinfo := fun _ _ => -300.

(** An aware datetime as minutes since the epoch in UTC; its date and
    minute of the day in a zone are read off with floor division. *)
Definition minutes_per_day := 1440.

(** [add_minutes_hhmm(hhmm_utc, minutes)]; [today] is [date.today()]. *)
Definition add_minutes_hhmm (today : Z) (hhmm_utc : pystr) (minutes : Z) : res pystr :=
  t <- parse_hhmm hhmm_utc ;;
  let '(hh, mm) := t in
  let dt := today * minutes_per_day + hh * 60 + mm in
  let dt2 := dt + minutes in
  ret (strftime_hhmm (dt2 mod minutes_per_day)).

(** [to_utc_hhmm_and_dayshift(local_hhmm, tz_local)]: the local wall time
    at [today] is placed in the zone, converted to UTC, and
    [day_shift = (dt_utc.date() - dt_local.date()).days]. *)
Definition to_utc_hhmm_and_dayshift (tz_local : tzinfo) (today : Z) (local_hhmm : pystr)
  : res (pystr * Z) :=
  t <- parse_hhmm local_hhmm ;;
  let '(hh, mm) := t in
  let local_minute := hh * 60 + mm in
  let dt_utc := today * minutes_per_day + local_minute - tz_local today local_minute in
  let utc_date := dt_utc / minutes_per_day in
  let local_date := today in
  ret (strftime_hhmm (dt_utc mod minutes_per_day), utc_date - local_date).

(** ** The SleepInfo object model *)

(** [{"matchLabels": {key: value}}] *)
Record label_matcher := LabelMatcher { lm_key : pystr; lm_value : pystr }.

Definition EXCLUDE_PG_HDFS_LABELS : list label_matcher :=
  [LabelMatcher (str_of "app.kubernetes.io/managed-by") (str_of "postgres-operator");
   LabelMatcher (str_of "postgres.stratio.com/cluster") (str_of "true");
   LabelMatcher (str_of "app.kubernetes.io/part-of") (str_of "postgres");
   LabelMatcher (str_of "app.kubernetes.io/managed-by") (str_of "hdfs-operator");
   LabelMatcher (str_of "hdfs.stratio.com/cluster") (str_of "true");
   LabelMatcher (str_of "app.kubernetes.io/part-of") (str_of "hdfs")].

Definition get_exclude_pg_hdfs_refs : list label_matcher := EXCLUDE_PG_HDFS_LABELS.

(** [{"target": {"group": g, "kind": k}, "patch": p}] *)
Record patch := PatchBlock { pt_group : pystr; pt_kind : pystr; pt_patch : pystr }.

(** The [spec] dict of a SleepInfo.  An optional key is [None] when absent;
    the three CRD toggles are only ever written as [True], so each is
    present exactly when its boolean is [true]. *)
Record sleepinfo_spec := SleepInfoSpec {
  sp_weekdays : pystr;
  sp_timeZone : pystr;
  sp_sleepAt : pystr;
  sp_suspendDeployments : bool;
  sp_suspendStatefulSets : bool;
  sp_suspendCronJobs : bool;
  sp_wakeUpAt : option pystr;
  sp_suspendDeploymentsPgbouncer : bool;
  sp_suspendStatefulSetsPostgres : bool;
  sp_suspendStatefulSetsHdfs : bool;
  sp_excludeRef : option (list label_matcher);
  sp_patches : option (list patch)
}.

Record metadata := Metadata {
  md_name : pystr;
  md_namespace : pystr;
  md_annotations : option (list (pystr * pystr))
}.

Record sleepinfo := SleepInfo {
  si_apiVersion : pystr;
  si_kind : pystr;
  si_metadata : metadata;
  si_spec : sleepinfo_spec
}.

(** [meta(name, namespace, annotations)]: annotations only when non-empty. *)
Definition meta (name namespace : pystr) (annotations : list (pystr * pystr)) : metadata :=
  Metadata name namespace (match annotations with [] => None | _ => Some annotations end).

(** [sleepinfo_base(...)]; [wakeUpAtUTC = None] leaves [wakeUpAt] out. *)
Definition sleepinfo_base (weekdays sleepAtUTC : pystr) (wakeUpAtUTC : option pystr)
  (tz : pystr)
  (suspendDeployments suspendStatefulSets suspendCronJobs
   suspendDeploymentsPgbouncer suspendStatefulSetsPostgres suspendStatefulSetsHdfs : bool)
  : sleepinfo_spec :=
  SleepInfoSpec weekdays tz sleepAtUTC suspendDeployments suspendStatefulSets suspendCronJobs
    wakeUpAtUTC suspendDeploymentsPgbouncer suspendStatefulSetsPostgres suspendStatefulSetsHdfs
    None None.

(** [spec["excludeRef"] = refs] *)
Definition set_excludeRef (sp : sleepinfo_spec) (refs : list label_matcher) : sleepinfo_spec :=
  SleepInfoSpec (sp_weekdays sp) (sp_timeZone sp) (sp_sleepAt sp) (sp_suspendDeployments sp)
    (sp_suspendStatefulSets sp) (sp_suspendCronJobs sp) (sp_wakeUpAt sp)
    (sp_suspendDeploymentsPgbouncer sp) (sp_suspendStatefulSetsPostgres sp)
    (sp_suspendStatefulSetsHdfs sp) (Some refs) (sp_patches sp).

(** [spec["patches"] = ps] *)
Definition set_patches (sp : sleepinfo_spec) (ps : list patch) : sleepinfo_spec :=
  SleepInfoSpec (sp_weekdays sp) (sp_timeZone sp) (sp_sleepAt sp) (sp_suspendDeployments sp)
    (sp_suspendStatefulSets sp) (sp_suspendCronJobs sp) (sp_wakeUpAt sp)
    (sp_suspendDeploymentsPgbouncer sp) (sp_suspendStatefulSetsPostgres sp)
    (sp_suspendStatefulSetsHdfs sp) (sp_excludeRef sp) (Some ps).

(** [cr_yaml(kind, metadata, spec)]: the kind argument is not used. *)
Definition cr_yaml (kind : pystr) (md : metadata) (sp : sleepinfo_spec) : sleepinfo :=
  SleepInfo (str_of "kube-green.com/v1alpha1") (str_of "SleepInfo") md sp.

Definition UTC := str_of "UTC".
Definition KIND := str_of "SleepInfo".
Definition PAIR_ID := str_of "kube-green.stratio.com/pair-id".
Definition PAIR_ROLE := str_of "kube-green.stratio.com/pair-role".
Definition ROLE_SLEEP := str_of "sleep".
Definition ROLE_WAKE := str_of "wake".

Definition pair_annotations (shared_id role : pystr) : list (pystr * pystr) :=
  [(PAIR_ID, shared_id); (PAIR_ROLE, role)].

(** Python set equality of two weekday lists. *)
Definition set_eqb (a b : list Z) : bool :=
  forallb (fun n => memZ n b) a && forallb (fun n => memZ n a) b.

(** ** Generators per namespace kind *)

(** The four SleepInfos of [<tenant>-datastores].  Both branches of the
    weekday test in the source build exactly this list. *)
Definition datastores_objs (tenant off_utc on_deployments_utc on_pg_hdfs on_pgbouncer
                            wd_sleep wd_wake : pystr) : list sleepinfo :=
  let ns := tenant ++ str_of "-datastores" in
  let base_name := str_of "ds-deploys-" ++ tenant in
  let exclude_refs := get_exclude_pg_hdfs_refs in
  let shared_id := tenant ++ str_of "-datastores" in
  let spec_sleep := set_excludeRef
    (sleepinfo_base wd_sleep off_utc None UTC true true true true true true) exclude_refs in
  let spec_wake_pg_hdfs := set_excludeRef
    (sleepinfo_base wd_wake on_pg_hdfs None UTC false false false false true true) exclude_refs in
  let spec_wake_pgbouncer := set_excludeRef
    (sleepinfo_base wd_wake on_pgbouncer None UTC false false false true false false) exclude_refs in
  let spec_wake_native := set_excludeRef
    (sleepinfo_base wd_wake on_deployments_utc None UTC true true true true false false) exclude_refs in
  [cr_yaml KIND (meta (str_of "sleep-" ++ base_name) ns (pair_annotations shared_id ROLE_SLEEP)) spec_sleep;
   cr_yaml KIND (meta (str_of "wake-" ++ base_name ++ str_of "-pg-hdfs") ns
                   (pair_annotations shared_id ROLE_WAKE)) spec_wake_pg_hdfs;
   cr_yaml KIND (meta (str_of "wake-" ++ base_name ++ str_of "-pgbouncer") ns
                   (pair_annotations shared_id ROLE_WAKE)) spec_wake_pgbouncer;
   cr_yaml KIND (meta (str_of "wake-" ++ base_name) ns
                   (pair_annotations shared_id ROLE_WAKE)) spec_wake_native].

(** [make_datastores_native_deploys_split_days(...)] *)
Definition make_datastores_native_deploys_split_days
  (tenant off_utc on_deployments_utc on_pg_hdfs on_pgbouncer wd_sleep wd_wake : pystr)
  : res (list sleepinfo) :=
  wd_sleep_set <- _expand_weekdays_str wd_sleep ;;
  wd_wake_set <- _expand_weekdays_str wd_wake ;;
  if set_eqb wd_sleep_set wd_wake_set
  then ret (datastores_objs tenant off_utc on_deployments_utc on_pg_hdfs on_pgbouncer wd_sleep wd_wake)
  else ret (datastores_objs tenant off_utc on_deployments_utc on_pg_hdfs on_pgbouncer wd_sleep wd_wake).

(** [make_ns_split_days(...)]; a [None] list argument is the empty list
    (both are falsy in the source). *)
Definition make_ns_split_days (tenant ns_suffix base_name off_utc on_deployments_utc
                               wd_sleep wd_wake : pystr)
  (suspend_statefulsets suspend_statefulsets_postgres : bool)
  (extra_sleep_patches extra_wake_patches : list patch)
  (extra_exclude_labels : list label_matcher) : res (list sleepinfo) :=
  let ns := tenant ++ 45 :: ns_suffix in
  let exclude_ref := extra_exclude_labels ++
    (if pystr_eqb ns_suffix (str_of "apps")
     then [LabelMatcher (str_of "cct.stratio.com/application_id") (str_of "virtualizer." ++ ns)]
     else []) in
  let all_patches := extra_sleep_patches ++ extra_wake_patches in
  let with_ex sp := match exclude_ref with [] => sp | _ => set_excludeRef sp exclude_ref end in
  let with_patches sp ps := match ps with [] => sp | _ => set_patches sp ps end in
  wd_sleep_set <- _expand_weekdays_str wd_sleep ;;
  wd_wake_set <- _expand_weekdays_str wd_wake ;;
  if set_eqb wd_sleep_set wd_wake_set then
    let spec := sleepinfo_base wd_sleep off_utc (Some on_deployments_utc) UTC
                  true suspend_statefulsets true false suspend_statefulsets_postgres false in
    ret [cr_yaml KIND (meta (tenant ++ 45 :: ns_suffix) ns [])
           (with_patches (with_ex spec) all_patches)]
  else
    let shared_id := tenant ++ 45 :: ns_suffix in
    let spec_s := sleepinfo_base wd_sleep off_utc None UTC
                    true suspend_statefulsets true false suspend_statefulsets_postgres false in
    let spec_w := sleepinfo_base wd_wake on_deployments_utc None UTC
                    true suspend_statefulsets true false suspend_statefulsets_postgres false in
    ret [cr_yaml KIND (meta (str_of "sleep-" ++ tenant ++ 45 :: ns_suffix) ns
                          (pair_annotations shared_id ROLE_SLEEP))
           (with_patches (with_ex spec_s) extra_sleep_patches);
         cr_yaml KIND (meta (str_of "wake-" ++ tenant ++ 45 :: ns_suffix) ns
                          (pair_annotations shared_id ROLE_WAKE))
           (with_patches (with_ex spec_w) extra_wake_patches)].

(** ** Namespace selection *)

Definition VALID_SUFFIXES : list pystr :=
  [str_of "datastores"; str_of "apps"; str_of "rocket"; str_of "intelligence";
   str_of "airflowsso"].

Definition mem_str (x : pystr) (l : list pystr) : bool := existsb (pystr_eqb x) l.

(** [re.split(r"[,\s]+", s)]: a maximal run of separators splits once. *)
Definition is_ns_sep (c : Z) : bool := (c =? 44) || is_space c.

Fixpoint resplit_go (cur : pystr) (in_sep : bool) (s : pystr) : list pystr :=
  match s with
  | [] => [rev cur]
  | c :: r =>
      if is_ns_sep c then
        if in_sep then resplit_go cur true r else rev cur :: resplit_go [] true r
      else resplit_go (c :: cur) false r
  end.

Definition resplit (s : pystr) : list pystr := resplit_go [] false s.

(** The argument of [normalize_namespaces]: [None], a string, or a list
    (whose items are already [str(x)]). *)
Inductive ns_arg := NsNone | NsStr (s : pystr) | NsList (xs : list pystr).

(** The loop over [parts]: the warnings printed (the lowered tokens) and
    the set [out] (a list without duplicates, in insertion order). *)
Fixpoint collect_suffixes (parts : list pystr) (warnings out : list pystr)
  : list pystr * list pystr :=
  match parts with
  | [] => (warnings, out)
  | p :: ps =>
      match p with
      | [] => collect_suffixes ps warnings out
      | _ =>
          let p := py_lower p in
          if negb (mem_str p VALID_SUFFIXES) then collect_suffixes ps (warnings ++ [p]) out
          else collect_suffixes ps warnings (if mem_str p out then out else out ++ [p])
      end
  end.

(** [normalize_namespaces(ns_arg)]: the tokens warned about, and the set. *)
Definition normalize_namespaces (arg : ns_arg) : list pystr * list pystr :=
  let parts :=
    match arg with
    | NsNone => None
    | NsStr [] => None
    | NsList [] => None
    | NsStr s => Some (resplit (strip s))
    | NsList xs => Some (flat_map (fun x => resplit (strip x)) xs)
    end in
  match parts with
  | None => ([], VALID_SUFFIXES)
  | Some parts =>
      let '(warnings, out) := collect_suffixes parts [] [] in
      (warnings, match out with [] => VALID_SUFFIXES | _ => out end)
  end.

(** [allow_ns(selected_set, suffix)] *)
Definition allow_ns (selected : list pystr) (suffix : pystr) : bool :=
  mem_str suffix (match selected with [] => VALID_SUFFIXES | _ => selected end).

(** ** The assembler *)

(** [except ValueError: ... sys.exit(1)] *)
Definition exit_on_value_error {A} (m : res A) : res A :=
  match m with inl ValueError => inl (SystemExit 1) | _ => m end.

(** [x if x else default] for an optional string. *)
Definition truthy (s : option pystr) : option pystr :=
  match s with Some (_ :: _) => s | _ => None end.

(** Steps 1 to 4 of [make_all_objects_for_tenant] and the namespace filter. *)
Record plan := Plan {
  pl_off_utc : pystr;
  pl_on_pg_hdfs : pystr;
  pl_on_pgbouncer : pystr;
  pl_on_deployments : pystr;
  pl_wd_sleep_utc : pystr;
  pl_wd_wake_utc : pystr;
  pl_selected : list pystr
}.

(** Step 4: the staggered wake times. *)
Definition stagger (today : Z) (on_utc : pystr) : res (pystr * pystr * pystr) :=
  let on_pg_hdfs := on_utc in
  on_pgbouncer <- add_minutes_hhmm today on_utc 5 ;;
  on_deployments <- add_minutes_hhmm today on_utc 7 ;;
  ret (on_pg_hdfs, on_pgbouncer, on_deployments).

Definition prepare (today : Z) (off_local on_local : pystr)
  (weekdays sleepdays wakedays : option pystr) (selected_suffixes : ns_arg) : res plan :=
  wds <- exit_on_value_error (
           wd_default <- human_weekdays_to_kube weekdays ;;
           wd_sleep_local <- (match truthy sleepdays with
                              | Some _ => human_weekdays_to_kube sleepdays
                              | None => ret wd_default end) ;;
           wd_wake_local <- (match truthy wakedays with
                             | Some _ => human_weekdays_to_kube wakedays
                             | None => ret wd_default end) ;;
           ret (wd_sleep_local, wd_wake_local)) ;;
  let '(wd_sleep_local, wd_wake_local) := wds in
  off <- to_utc_hhmm_and_dayshift ZoneBogota today off_local ;;
  let '(off_utc, off_shift) := off in
  on <- to_utc_hhmm_and_dayshift ZoneBogota today on_local ;;
  let '(on_utc, on_shift) := on in
  wd_sleep_utc <- _shift_weekdays_str wd_sleep_local off_shift ;;
  wd_wake_utc <- _shift_weekdays_str wd_wake_local on_shift ;;
  st <- stagger today on_utc ;;
  let '(on_pg_hdfs, on_pgbouncer, on_deployments) := st in
  let selected := snd (normalize_namespaces selected_suffixes) in
  ret (Plan off_utc on_pg_hdfs on_pgbouncer on_deployments wd_sleep_utc wd_wake_utc selected).

(** The generator calls of [make_all_objects_for_tenant], in source order. *)
Definition assemble (tenant : pystr) (p : plan) : res (list sleepinfo) :=
  let sel := pl_selected p in
  let off_utc := pl_off_utc p in
  let on_deployments := pl_on_deployments p in
  let wd_sleep_utc := pl_wd_sleep_utc p in
  let wd_wake_utc := pl_wd_wake_utc p in
  ds <- (if allow_ns sel (str_of "datastores")
         then make_datastores_native_deploys_split_days tenant off_utc on_deployments
                (pl_on_pg_hdfs p) (pl_on_pgbouncer p) wd_sleep_utc wd_wake_utc
         else ret []) ;;
  apps <- (if allow_ns sel (str_of "apps")
           then make_ns_split_days tenant (str_of "apps") (str_of "apps") off_utc on_deployments
                  wd_sleep_utc wd_wake_utc false false [] [] []
           else ret []) ;;
  rocket <- (if allow_ns sel (str_of "rocket")
             then make_ns_split_days tenant (str_of "rocket") (str_of "rocket") off_utc
                    on_deployments wd_sleep_utc wd_wake_utc false false [] [] []
             else ret []) ;;
  intel <- (if allow_ns sel (str_of "intelligence")
            then make_ns_split_days tenant (str_of "intelligence") (str_of "intelligence")
                   off_utc on_deployments wd_sleep_utc wd_wake_utc false false [] [] []
            else ret []) ;;
  airflow <- (if allow_ns sel (str_of "airflowsso")
              then make_ns_split_days tenant (str_of "airflowsso") (str_of "airflowsso")
                     off_utc on_deployments wd_sleep_utc wd_wake_utc true true [] []
                     get_exclude_pg_hdfs_refs
              else ret []) ;;
  ret (ds ++ apps ++ rocket ++ intel ++ airflow).

(** [make_all_objects_for_tenant(tenant, off_local, on_local, weekdays,
    sleepdays, wakedays, selected_suffixes)] with [date.today() = today]. *)
Definition make_all_objects_for_tenant (today : Z) (tenant off_local on_local : pystr)
  (weekdays sleepdays wakedays : option pystr) (selected_suffixes : ns_arg)
  : res (list sleepinfo) :=
  p <- prepare today off_local on_local weekdays sleepdays wakedays selected_suffixes ;;
  assemble tenant p.

(** ** Display helpers *)

(** [DAYS_NUM_TO_ES = {v: k for k, v in DAYS_ES.items()}] read with
    [.get(n)]: a later key overwrites an earlier one with the same number. *)
Definition DAYS_NUM_TO_ES_get (n : Z) : option pystr :=
  match find (fun e => snd e =? n) (rev DAYS_ES) with
  | Some (k, _) => Some k
  | None => None
  end.

(** One chunk of [kube_weekdays_to_human] (after [chunk.strip()]); unlike
    [_expand_weekdays_str], an empty chunk is not skipped. *)
Definition kube_chunk (chunk : pystr) : res (list Z) :=
  match split1 45 chunk with
  | Some (a, b) => a' <- py_int a ;; b' <- py_int b ;; ret (circular_range a' b')
  | None => n <- py_int chunk ;; ret [n]
  end.

(** [DAYS_NUM_TO_ES.get(n, str(n))] *)
Definition day_display (n : Z) : pystr :=
  match DAYS_NUM_TO_ES_get n with Some k => k | None => py_str n end.

(** [kube_weekdays_to_human(s)]; [None] is Python's [None]. *)
Definition kube_weekdays_to_human (s : option pystr) : res pystr :=
  let raw := strip (match s with Some x => x | None => [] end) in
  match raw with
  | [] => ret (str_of "todos")
  | _ =>
      tokens <- extend_all (fun chunk => kube_chunk (strip chunk)) (split_on 44 raw) ;;
      ret (join 44 (map day_display (dedup tokens)))
  end.

(** [to_utc_hhmm(local_hhmm, tz_local)] *)
Definition to_utc_hhmm (tz_local : tzinfo) (today : Z) (local_hhmm : pystr) : res pystr :=
  t <- parse_hhmm local_hhmm ;;
  let '(hh, mm) := t in
  let local_minute := hh * 60 + mm in
  let dt_utc := today * minutes_per_day + local_minute - tz_local today local_minute in
  ret (strftime_hhmm (dt_utc mod minutes_per_day)).

(** [utc_hhmm_to_local(hhmm_utc, tz_local)] for a local zone with the fixed
    UTC offset [tz_offset] (in minutes), as America/Bogota has:
    [astimezone] adds the offset to the UTC instant. *)
Definition utc_hhmm_to_local (tz_offset today : Z) (hhmm_utc : pystr) : res pystr :=
  match hhmm_utc with
  | [] => ret []
  | _ =>
      t <- parse_hhmm hhmm_utc ;;
      let '(hh, mm) := t in
      let dt_utc := today * minutes_per_day + hh * 60 + mm in
      ret (strftime_hhmm ((dt_utc + tz_offset) mod minutes_per_day))
  end.

(** [namespaces_for_tenant(tenant, selected_suffixes)] *)
Definition namespaces_for_tenant (tenant : pystr) (selected_suffixes : ns_arg) : list pystr :=
  let sel := snd (normalize_namespaces selected_suffixes) in
  map (fun s => tenant ++ 45 :: s) (filter (fun s => mem_str s sel) VALID_SUFFIXES).

(** ** Cluster maintenance *)

(** [s.startswith(prefix)] *)
Fixpoint starts_with (prefix s : pystr) : bool :=
  match prefix, s with
  | [], _ => true
  | p :: ps, c :: r => (p =? c) && starts_with ps r
  | _ :: _, [] => false
  end.

(** [s.replace(old, "", 1)]: the first occurrence of [old] is removed. *)
Fixpoint replace_first (old s : pystr) : pystr :=
  if starts_with old s then skipn (List.length old) s
  else match s with
       | [] => []
       | c :: r => c :: replace_first old r
       end.

(** [sub in s] for strings *)
Fixpoint py_contains (sub s : pystr) : bool :=
  starts_with sub s || match s with [] => false | _ :: r => py_contains sub r end.

(** The [kubectl] calls that change the cluster. *)
Inductive kubectl_cmd :=
| DeleteSleepInfo (ns name : pystr)
| DeleteSecret (ns name : pystr).

(** What the cluster answers, reduced to what the code reads.
    [cl_sleepinfos ns] is [None] when [kubectl_get_sleepinfo(ns)] returns
    nothing usable (a failed [kubectl], a falsy JSON, no "items"), else the
    items' names; [cl_secrets ns] is [None] when listing the Secrets fails
    (a failed [kubectl] or invalid JSON), else the Secrets' names. *)
Record cluster := Cluster {
  cl_sleepinfos : pystr -> option (list pystr);
  cl_secrets : pystr -> option (list pystr)
}.

Definition all_suffixes : list pystr :=
  [str_of "datastores"; str_of "apps"; str_of "rocket"; str_of "intelligence";
   str_of "airflowsso"].

(** The [target_suffixes] of [reconcile_sleepinfos] and
    [cleanup_orphan_secrets]; [None] when the function returns early. *)
Definition target_suffixes (selected_suffixes : option pystr) : option (list pystr) :=
  match selected_suffixes with
  | Some ((_ :: _) as s) =>
      match filter (fun t => nonempty t && mem_str t all_suffixes) (resplit (strip s)) with
      | [] => None
      | ts => Some ts
      end
  | _ => Some all_suffixes
  end.

Definition SECRET_PREFIX := str_of "sleepinfo-".

(** The loop over [data["items"]] of one namespace. *)
Definition reconcile_ns (ns : pystr) (desired_names names : list pystr) : list kubectl_cmd :=
  flat_map (fun name =>
              if mem_str name desired_names then []
              else [DeleteSleepInfo ns name; DeleteSecret ns (SECRET_PREFIX ++ name)])
           names.

(** [reconcile_sleepinfos(tenant, yaml_objs, selected_suffixes)]: the
    deletions it runs, in order. *)
Definition reconcile_sleepinfos (cl : cluster) (tenant : pystr) (yaml_objs : list sleepinfo)
  (selected_suffixes : option pystr) : list kubectl_cmd :=
  match target_suffixes selected_suffixes with
  | None => []
  | Some targets =>
      let desired_names := map (fun o => md_name (si_metadata o)) yaml_objs in
      flat_map (fun suf =>
                  let ns := tenant ++ 45 :: suf in
                  match cl_sleepinfos cl ns with
                  | None => []
                  | Some names => reconcile_ns ns desired_names names
                  end) targets
  end.

(** The loop over the Secrets of one namespace. *)
Definition cleanup_ns (ns : pystr) (existing_sleepinfos secrets : list pystr) : list kubectl_cmd :=
  flat_map (fun secret_name =>
              if negb (starts_with SECRET_PREFIX secret_name) then []
              else
                let sleepinfo_name := replace_first SECRET_PREFIX secret_name in
                if mem_str sleepinfo_name existing_sleepinfos then []
                else [DeleteSecret ns secret_name])
           secrets.

(** [cleanup_orphan_secrets(tenant, selected_suffixes)]: the deletions it runs. *)
Definition cleanup_orphan_secrets (cl : cluster) (tenant : pystr)
  (selected_suffixes : option pystr) : list kubectl_cmd :=
  match target_suffixes selected_suffixes with
  | None => []
  | Some targets =>
      flat_map (fun suf =>
                  let ns := tenant ++ 45 :: suf in
                  match cl_secrets cl ns with
                  | None => []
                  | Some secrets =>
                      let existing := match cl_sleepinfos cl ns with
                                      | Some names => names
                                      | None => []
                                      end in
                      cleanup_ns ns existing secrets
                  end) targets
  end.

(** ** Schedule display *)



(** [for x in l: ...] over a body that may raise. *)
Fixpoint map_res {A B} (f : A -> res B) (l : list A) : res (list B) :=
  match l with
  | [] => ret []
  | x :: xs => y <- f x ;; ys <- map_res f xs ;; ret (y :: ys)
  end.




(** ** YAML rendering and deployment check *)

(** [spec["weekdays"] = wd] *)
Definition set_weekdays (sp : sleepinfo_spec) (wd : pystr) : sleepinfo_spec :=
  SleepInfoSpec wd (sp_timeZone sp) (sp_sleepAt sp) (sp_suspendDeployments sp)
    (sp_suspendStatefulSets sp) (sp_suspendCronJobs sp) (sp_wakeUpAt sp)
    (sp_suspendDeploymentsPgbouncer sp) (sp_suspendStatefulSetsPostgres sp)
    (sp_suspendStatefulSetsHdfs sp) (sp_excludeRef sp) (sp_patches sp).

(** The body of the first loop of [to_yaml_docs(objs)] for one object: a
    [weekdays] string with a letter is normalized again.  The other steps
    of the loop only change how strings are dumped ([LiteralScalarString])
    or convert non-strings, and every field here is already a string; the
    YAML dump itself is not modelled. *)
Definition to_yaml_normalize (o : sleepinfo) : res sleepinfo :=
  let spec := si_spec o in
  let wd := sp_weekdays spec in
  if has_letter wd then
    wd' <- human_weekdays_to_kube (Some wd) ;;
    ret (SleepInfo (si_apiVersion o) (si_kind o) (si_metadata o) (set_weekdays spec wd'))
  else ret o.

(** The objects [to_yaml_docs(objs)] dumps. *)
Definition to_yaml_objects (objs : list sleepinfo) : res (list sleepinfo) :=
  map_res to_yaml_normalize objs.

(** What [check_and_wake_deployments] reads of a Deployment; [None] is a
    missing key, read with its [.get] default. *)
Record deployment := Deployment {
  dp_name : pystr;
  dp_replicas : option Z;
  dp_readyReplicas : option Z;
  dp_application_id : option pystr;
  dp_managed_by : option pystr
}.

(** The test of the loop over [data.get("items", [])]. *)
Definition deployment_reported (d : deployment) : bool :=
  let spec_replicas := match dp_replicas d with Some r => r | None => 1 end in
  let ready_replicas := match dp_readyReplicas d with Some r => r | None => 0 end in
  if (spec_replicas =? 0) || (ready_replicas =? 0) then
    let app_id := match dp_application_id d with Some a => a | None => [] end in
    if py_contains (str_of "virtualizer") (py_lower app_id) then false
    else
      let managed_by := match dp_managed_by d with Some m => m | None => [] end in
      if py_contains (str_of "postgres-operator") managed_by
         || py_contains (str_of "hdfs-operator") managed_by
      then false
      else true
  else false.

(** [check_and_wake_deployments(tenant, selected_suffixes)]: the
    deployments it reports as [(name, ns)], in order; [deployments_of ns]
    is [None] when listing the Deployments fails.  The closing note is
    printed when the list is not empty. *)
Definition check_and_wake_deployments (deployments_of : pystr -> option (list deployment))
  (tenant : pystr) (selected_suffixes : ns_arg) : list (pystr * pystr) :=
  flat_map (fun ns =>
              match deployments_of ns with
              | None => []
              | Some items => map (fun d => (dp_name d, ns)) (filter deployment_reported items)
              end) (namespaces_for_tenant tenant selected_suffixes).

(** * Properties *)

(** ** Time arithmetic *)

Lemma mod_day_shift (today x : Z) :
  (today * minutes_per_day + x) mod minutes_per_day = x mod minutes_per_day.
Proof.
  unfold minutes_per_day.
  rewrite Z.add_comm, Z_mod_plus_full. reflexivity.
Qed.

Lemma add_minutes_hhmm_spec (today : Z) (s : pystr) (hh mm k : Z) :
  parse_hhmm s = inr (hh, mm) ->
  add_minutes_hhmm today s k = inr (strftime_hhmm ((hh * 60 + mm + k) mod minutes_per_day)).
Proof.
  intros H. unfold add_minutes_hhmm. rewrite H. cbn [bind].
  replace (today * minutes_per_day + hh * 60 + mm + k)
    with (today * minutes_per_day + (hh * 60 + mm + k)) by ring.
  rewrite mod_day_shift. reflexivity.
Qed.

(** C1. The staggered chain built from a base wake time [T0] (an HH:MM
    string read as [hh:mm]) is [T0], then [T0 + 5 min] and [T0 + 7 min],
    each taken modulo 24 h. *)
Theorem stagger_chain_offsets (today : Z) (T0 : pystr) (hh mm : Z) :
  parse_hhmm T0 = inr (hh, mm) ->
  stagger today T0 =
    inr (T0, strftime_hhmm ((hh * 60 + mm + 5) mod minutes_per_day),
             strftime_hhmm ((hh * 60 + mm + 7) mod minutes_per_day)).
Proof.
  intros H. unfold stagger.
  rewrite (add_minutes_hhmm_spec today T0 hh mm 5 H).
  rewrite (add_minutes_hhmm_spec today T0 hh mm 7 H).
  reflexivity.
Qed.

Lemma stagger_chain_offsets_witness :
  parse_hhmm (str_of "23:58") = inr (23, 58) /\
  stagger 739000 (str_of "23:58") = inr (str_of "23:58", str_of "00:03", str_of "00:05").
Proof.
  split; [reflexivity |].
  rewrite (stagger_chain_offsets 739000 (str_of "23:58") 23 58); reflexivity.
Defined.

(** C2. In the UTC-5 zone of the tool ([ZoneBogota]), local 22:00 becomes
    03:00 UTC with day shift +1, local 23:00 becomes 04:00 UTC with day
    shift +1 and local 03:00 becomes 08:00 UTC with day shift 0.  For any
    zone whose offset is below 24 h in magnitude (as [datetime] requires of
    [utcoffset()]), the UTC instant lies on the calendar date
    [today + day_shift], so [day_shift] is the UTC date minus the local date,
    and [day_shift] is -1, 0 or +1. *)
Theorem to_utc_dayshift_correct :
  to_utc_hhmm_and_dayshift ZoneBogota 739000 (str_of "22:00") = inr (str_of "03:00", 1) /\
  to_utc_hhmm_and_dayshift ZoneBogota 739000 (str_of "23:00") = inr (str_of "04:00", 1) /\
  to_utc_hhmm_and_dayshift ZoneBogota 739000 (str_of "03:00") = inr (str_of "08:00", 0) /\
  (forall (tz : tzinfo) (today : Z) (s : pystr) (hh mm : Z),
     (forall d m, - minutes_per_day < tz d m < minutes_per_day) ->
     parse_hhmm s = inr (hh, mm) ->
     exists u day_shift,
       to_utc_hhmm_and_dayshift tz today s = inr (strftime_hhmm u, day_shift) /\
       0 <= u < minutes_per_day /\
       today * minutes_per_day + (hh * 60 + mm) - tz today (hh * 60 + mm)
         = (today + day_shift) * minutes_per_day + u /\
       (day_shift = -1 \/ day_shift = 0 \/ day_shift = 1)).
Proof.
  split; [reflexivity |]. split; [reflexivity |]. split; [reflexivity |].
  intros tz today s hh mm Htz H.
  assert (Hhm : 0 <= hh <= 23 /\ 0 <= mm <= 59).
  { unfold parse_hhmm in H.
    destruct (split_on 58 s) as [| a [| b [| ? ?]]]; try discriminate.
    destruct (py_int a) as [| h]; try discriminate. cbn [bind] in H.
    destruct (py_int b) as [| m]; try discriminate. cbn [bind] in H.
    destruct ((0 <=? h) && (h <=? 23) && (0 <=? m) && (m <=? 59)) eqn:E;
      try discriminate.
    injection H as <- <-.
    repeat rewrite andb_true_iff in E. rewrite !Z.leb_le in E. lia. }
  unfold to_utc_hhmm_and_dayshift. rewrite H. cbn [bind].
  set (dt := today * minutes_per_day + (hh * 60 + mm) - tz today (hh * 60 + mm)).
  exists (dt mod minutes_per_day), (dt / minutes_per_day - today).
  specialize (Htz today (hh * 60 + mm)).
  assert (Hpos : 0 < minutes_per_day) by (unfold minutes_per_day; lia).
  pose proof (Z.div_mod dt minutes_per_day ltac:(lia)) as Hdm.
  pose proof (Z.mod_pos_bound dt minutes_per_day Hpos) as Hb.
  unfold minutes_per_day in *.
  repeat split; try reflexivity; try lia.
Qed.

Lemma to_utc_dayshift_correct_witness :
  (forall d m, - minutes_per_day < ZoneBogota d m < minutes_per_day) /\
  parse_hhmm (str_of "22:00") = inr (22, 0) /\
  exists u day_shift,
    to_utc_hhmm_and_dayshift ZoneBogota 739000 (str_of "22:00")
      = inr (strftime_hhmm u, day_shift) /\
    0 <= u < minutes_per_day /\
    739000 * minutes_per_day + (22 * 60 + 0) - ZoneBogota 739000 (22 * 60 + 0)
      = (739000 + day_shift) * minutes_per_day + u /\
    (day_shift = -1 \/ day_shift = 0 \/ day_shift = 1).
Proof.
  assert (Hz : forall d m, - minutes_per_day < ZoneBogota d m < minutes_per_day)
    by (intros; unfold ZoneBogota, minutes_per_day; lia).
  split; [exact Hz |]. split; [reflexivity |].
  apply (proj2 (proj2 (proj2 to_utc_dayshift_correct))); [exact Hz | reflexivity].
Defined.

(** ** The weekday normalizer *)

Definition full_week : list Z := [0; 1; 2; 3; 4; 5; 6].

(** C10. An absent, empty or whitespace-only weekday specification parses
    to ["0-6"], whose membership set is the whole week. *)
Theorem blank_weekdays_full_week (s : option pystr) :
  (s = None \/ exists x, s = Some x /\ strip x = []) ->
  human_weekdays_to_kube s = inr (str_of "0-6") /\ weekday_members s = inr full_week.
Proof.
  intros Hs.
  assert (H : human_weekdays_to_kube s = inr (str_of "0-6")).
  { unfold human_weekdays_to_kube.
    destruct Hs as [-> | [x [-> Hx]]]; [reflexivity |]. rewrite Hx. reflexivity. }
  split; [exact H |]. unfold weekday_members. rewrite H. reflexivity.
Qed.

Lemma blank_weekdays_full_week_witness :
  (Some [32; 9; 32] = None \/ exists x, Some [32; 9; 32] = Some x /\ strip x = []) /\
  human_weekdays_to_kube (Some [32; 9; 32]) = inr (str_of "0-6") /\
  weekday_members (Some [32; 9; 32]) = inr full_week.
Proof.
  assert (Hs : Some [32; 9; 32] = None \/
               exists x, Some [32; 9; 32] = Some x /\ strip x = [])
    by (right; exists [32; 9; 32]; split; reflexivity).
  split; [exact Hs |].
  exact (blank_weekdays_full_week (Some [32; 9; 32]) Hs).
Defined.

(** ** List facts: [range], [dedup] *)

Lemma memZ_In (n : Z) (l : list Z) : memZ n l = true <-> In n l.
Proof.
  unfold memZ. rewrite existsb_exists. split.
  - intros [x [Hx E]]. apply Z.eqb_eq in E. subst. exact Hx.
  - intros H. exists n. split; [exact H | apply Z.eqb_refl].
Qed.

Lemma In_range (a b n : Z) : In n (range a b) <-> a <= n < b.
Proof.
  unfold range. rewrite in_map_iff. split.
  - intros [i [<- Hi]]. apply in_seq in Hi. lia.
  - intros H. exists (Z.to_nat (n - a)). split; [lia |].
    apply in_seq. lia.
Qed.

Lemma In_dedup_from (seen l : list Z) (n : Z) :
  In n (dedup_from seen l) <-> In n l /\ ~ In n seen.
Proof.
  revert seen. induction l as [| x l IH]; intros seen; simpl.
  - tauto.
  - destruct (memZ x seen) eqn:E.
    + apply memZ_In in E. rewrite IH. split.
      * intros [H1 H2]. tauto.
      * intros [[<- | H1] H2]; [contradiction | tauto].
    + assert (Hx : ~ In x seen) by (rewrite <- memZ_In; congruence).
      simpl. rewrite IH. simpl. split.
      * intros [<- | [H1 H2]]; [tauto |]. tauto.
      * intros [[<- | H1] H2]; [tauto |].
        destruct (Z.eq_dec x n) as [-> | Hne]; [tauto |]. right. split; [exact H1 |].
        intros [-> | H3]; [congruence | contradiction].
Qed.

Lemma In_dedup (l : list Z) (n : Z) : In n (dedup l) <-> In n l.
Proof. unfold dedup. rewrite In_dedup_from. simpl. tauto. Qed.

Lemma NoDup_dedup_from (seen l : list Z) : NoDup (dedup_from seen l).
Proof.
  revert seen. induction l as [| x l IH]; intros seen; simpl.
  - constructor.
  - destruct (memZ x seen); [apply IH |]. constructor; [| apply IH].
    rewrite In_dedup_from. simpl. tauto.
Qed.

Lemma NoDup_dedup (l : list Z) : NoDup (dedup l).
Proof. apply NoDup_dedup_from. Qed.

Lemma dedup_from_NoDup (seen l : list Z) :
  NoDup l -> (forall n, In n l -> ~ In n seen) -> dedup_from seen l = l.
Proof.
  revert seen. induction l as [| x l IH]; intros seen Hnd Hdis; simpl; [reflexivity |].
  inversion Hnd as [| ? ? Hx Hnd']; subst.
  destruct (memZ x seen) eqn:E.
  - apply memZ_In in E. exfalso. exact (Hdis x (or_introl eq_refl) E).
  - f_equal. apply IH; [exact Hnd' |].
    intros n Hn [<- | Hs]; [contradiction | exact (Hdis n (or_intror Hn) Hs)].
Qed.

Lemma dedup_NoDup (l : list Z) : NoDup l -> dedup l = l.
Proof. intros H. apply dedup_from_NoDup; [exact H | intros n _ []]. Qed.

Lemma In_circular_range (a b n : Z) :
  b < a -> In n (circular_range a b) <-> (a <= n <= 6 \/ 0 <= n <= b).
Proof.
  intros Hab. unfold circular_range.
  destruct (a <=? b) eqn:E; [apply Z.leb_le in E; lia |].
  rewrite in_app_iff, !In_range. lia.
Qed.

(** The numeric canonical form ["a-b"] of two single digits is accepted
    unchanged and expands to the (circular) range; checked digit by digit. *)
Definition digit_range_str (a b : Z) : pystr := [48 + a; 45; 48 + b].

Definition digit_range_ok (a b : Z) : bool :=
  match weekday_members (Some (digit_range_str a b)) with
  | inr l => if list_eq_dec Z.eq_dec l (dedup (circular_range a b)) then true else false
  | inl _ => false
  end.

Lemma digit_range_ok_all :
  forallb (fun a => forallb (fun b => digit_range_ok a b) (range 0 10)) (range 0 10) = true.
Proof. vm_compute. reflexivity. Qed.

Lemma weekday_members_digit_range (a b : Z) :
  0 <= a <= 9 -> 0 <= b <= 9 ->
  weekday_members (Some (digit_range_str a b)) = inr (dedup (circular_range a b)).
Proof.
  intros Ha Hb. pose proof digit_range_ok_all as H.
  rewrite forallb_forall in H. specialize (H a (proj2 (In_range 0 10 a) ltac:(lia))).
  rewrite forallb_forall in H. specialize (H b (proj2 (In_range 0 10 b) ltac:(lia))).
  unfold digit_range_ok in H.
  destruct (weekday_members (Some (digit_range_str a b))) as [e | l]; [discriminate |].
  destruct (list_eq_dec Z.eq_dec l (dedup (circular_range a b))) as [-> | _];
    [reflexivity | discriminate].
Qed.

Definition day_range_ok (ea eb : pystr * Z) : bool :=
  match weekday_members (Some (fst ea ++ 45 :: fst eb)) with
  | inr l =>
      if list_eq_dec Z.eq_dec l (dedup (circular_range (snd ea) (snd eb))) then true else false
  | inl _ => false
  end.

Lemma day_range_ok_all :
  forallb (fun ea => forallb (fun eb => day_range_ok ea eb) DAYS_ES) DAYS_ES = true.
Proof. vm_compute. reflexivity. Qed.

Lemma weekday_members_day_range (ka kb : pystr) (a b : Z) :
  In (ka, a) DAYS_ES -> In (kb, b) DAYS_ES ->
  weekday_members (Some (ka ++ 45 :: kb)) = inr (dedup (circular_range a b)).
Proof.
  intros Ha Hb. pose proof day_range_ok_all as H.
  rewrite forallb_forall in H. specialize (H _ Ha).
  rewrite forallb_forall in H. specialize (H _ Hb).
  unfold day_range_ok in H. cbn [fst snd] in H.
  destruct (weekday_members (Some (ka ++ 45 :: kb))) as [e | l]; [discriminate |].
  destruct (list_eq_dec Z.eq_dec l (dedup (circular_range a b))) as [-> | _];
    [reflexivity | discriminate].
Qed.

(** C5. Circular weekday ranges wrap through 6 to 0: ["5-0"] denotes
    {5, 6, 0}; any numeric range ["a-b"] of single digits with [a > b], and
    any range of two day names whose indices satisfy [a > b], denotes
    {a, ..., 6} together with {0, ..., b}. *)
Theorem circular_range_expansion :
  weekday_members (Some (str_of "5-0")) = inr [5; 6; 0] /\
  (forall a b : Z, 0 <= a <= 9 -> 0 <= b <= 9 -> b < a ->
     exists l, weekday_members (Some (digit_range_str a b)) = inr l /\
               forall n, In n l <-> (a <= n <= 6 \/ 0 <= n <= b)) /\
  (forall (ka kb : pystr) (a b : Z), In (ka, a) DAYS_ES -> In (kb, b) DAYS_ES -> b < a ->
     exists l, weekday_members (Some (ka ++ 45 :: kb)) = inr l /\
               forall n, In n l <-> (a <= n <= 6 \/ 0 <= n <= b)).
Proof.
  split; [reflexivity |]. split.
  - intros a b Ha Hb Hab. exists (dedup (circular_range a b)).
    split; [apply weekday_members_digit_range; assumption |].
    intros n. rewrite In_dedup. apply In_circular_range. exact Hab.
  - intros ka kb a b Ha Hb Hab. exists (dedup (circular_range a b)).
    split; [apply weekday_members_day_range; assumption |].
    intros n. rewrite In_dedup. apply In_circular_range. exact Hab.
Qed.

Lemma circular_range_expansion_witness :
  (0 <= 5 <= 9 /\ 0 <= 0 <= 9 /\ 0 < 5) /\
  exists l, weekday_members (Some (digit_range_str 5 0)) = inr l /\
            forall n, In n l <-> (5 <= n <= 6 \/ 0 <= n <= 0).
Proof.
  split; [lia |].
  apply (proj1 (proj2 circular_range_expansion)); lia.
Defined.

(** C7 (code defect). The numeric pass-through of [human_weekdays_to_kube]
    accepts any decimal digit, so the specification ["9"] is returned as is
    and its expansion has the member 9, outside 0..6, although
    [_expand_weekdays_str] documents a list of ints 0..6. *)
Theorem parse_digit_nine_out_of_range :
  human_weekdays_to_kube (Some (str_of "9")) = inr (str_of "9") /\
  weekday_members (Some (str_of "9")) = inr [9] /\
  ~ (0 <= 9 <= 6).
Proof. split; [reflexivity |]. split; [reflexivity | lia]. Qed.

(** ** Serialized weekday lists: [",".join(str(n) for n in out)] *)

Definition serialize_weekdays (l : list Z) : pystr := join 44 (map py_str l).

Ltac enum_digit n :=
  let H := fresh in
  assert (H : In n (range 0 10)) by (vm_compute; lia);
  vm_compute in H; repeat destruct H as [<- | H]; try contradiction.

Lemma py_str_digit (n : Z) : 0 <= n <= 9 -> py_str n = [48 + n].
Proof. intros H. enum_digit n; reflexivity. Qed.

Lemma digit_char_not_space (n : Z) : 0 <= n <= 9 -> is_space (48 + n) = false.
Proof. intros H. enum_digit n; reflexivity. Qed.

Lemma digit_char_not_letter (n : Z) : 0 <= n <= 9 -> is_regex_letter (48 + n) = false.
Proof. intros H. enum_digit n; reflexivity. Qed.

Lemma expand_chunk_digit (n : Z) : 0 <= n <= 9 -> expand_chunk (strip [48 + n]) = inr [n].
Proof. intros H. enum_digit n; reflexivity. Qed.

Lemma lstrip_nospace (s : pystr) : Forall (fun c => is_space c = false) s -> lstrip s = s.
Proof. intros H. destruct H as [| c r Hc _]; [reflexivity |]. simpl. rewrite Hc. reflexivity. Qed.

Lemma strip_nospace (s : pystr) : Forall (fun c => is_space c = false) s -> strip s = s.
Proof.
  intros H. unfold strip. rewrite (lstrip_nospace s H).
  rewrite lstrip_nospace; [apply rev_involutive |].
  apply Forall_rev. exact H.
Qed.

Lemma split_on_join (sep : Z) (parts : list pystr) :
  parts <> [] -> Forall (fun p => ~ In sep p) parts ->
  split_on sep (join sep parts) = parts.
Proof.
  induction parts as [| p ps IH]; intros Hne Hsep; [congruence |].
  inversion Hsep as [| ? ? Hp Hps]; subst.
  assert (Hp1 : forall tail, split_on sep (p ++ sep :: tail) = p :: split_on sep tail).
  { clear - Hp. induction p as [| c p IHp]; intros tail; simpl.
    - rewrite Z.eqb_refl. reflexivity.
    - simpl in Hp. rewrite IHp by tauto.
      destruct (c =? sep) eqn:E; [apply Z.eqb_eq in E; tauto | reflexivity]. }
  assert (Hp2 : split_on sep p = [p]).
  { clear - Hp. induction p as [| c p IHp]; simpl; [reflexivity |].
    simpl in Hp. rewrite IHp by tauto.
    destruct (c =? sep) eqn:E; [apply Z.eqb_eq in E; tauto | reflexivity]. }
  destruct ps as [| p' ps'].
  - exact Hp2.
  - change (join sep (p :: p' :: ps')) with (p ++ sep :: join sep (p' :: ps')).
    rewrite Hp1. f_equal. apply IH; [discriminate | exact Hps].
Qed.

Lemma Forall_join (P : Z -> Prop) (sep : Z) (parts : list pystr) :
  P sep -> Forall (Forall P) parts -> Forall P (join sep parts).
Proof.
  intros Hs H. induction H as [| p ps Hp Hps IH]; [constructor |].
  destruct ps as [| p' ps']; [exact Hp |].
  change (join sep (p :: p' :: ps')) with (p ++ sep :: join sep (p' :: ps')).
  apply Forall_app. split; [exact Hp | constructor; assumption].
Qed.

Lemma extend_all_digits (l : list Z) :
  Forall (fun n => 0 <= n <= 9) l ->
  extend_all (fun chunk => expand_chunk (strip chunk)) (map (fun n => [48 + n]) l) = inr l.
Proof.
  induction 1 as [| n l Hn Hl IH]; [reflexivity |].
  cbn [extend_all map]. rewrite expand_chunk_digit by exact Hn. cbn [bind]. rewrite IH. reflexivity.
Qed.

Lemma expand_nonempty (s : pystr) :
  s <> [] ->
  _expand_weekdays_str s =
    (s' <- (if has_letter (strip s) then human_weekdays_to_kube (Some (strip s))
            else ret (strip s)) ;;
     tokens <- extend_all (fun chunk => expand_chunk (strip chunk)) (split_on 44 s') ;;
     ret (dedup tokens)).
Proof. destruct s; [congruence | reflexivity]. Qed.

Lemma expand_digit_string (js : pystr) (l : list Z) :
  js <> [] -> Forall (fun c => is_space c = false) js -> has_letter js = false ->
  split_on 44 js = map (fun n => [48 + n]) l ->
  NoDup l -> Forall (fun n => 0 <= n <= 9) l ->
  _expand_weekdays_str js = inr l.
Proof.
  intros Hne Hns Hnl Hsplit Hnd Hr.
  rewrite (expand_nonempty _ Hne), (strip_nospace _ Hns), Hnl. cbn [bind ret].
  rewrite Hsplit, extend_all_digits by exact Hr. cbn [bind ret].
  rewrite dedup_NoDup by exact Hnd. reflexivity.
Qed.

(** Expanding a serialized list of distinct single digits gives the list
    back, except that the empty list serializes to [""], read as every day. *)
Lemma expand_serialize (m : list Z) :
  NoDup m -> Forall (fun n => 0 <= n <= 9) m ->
  _expand_weekdays_str (serialize_weekdays m) = inr (match m with [] => range 0 7 | _ => m end).
Proof.
  intros Hnd Hr. unfold serialize_weekdays.
  rewrite (map_ext_in py_str (fun n => [48 + n])).
  2:{ intros n Hn. apply py_str_digit. rewrite Forall_forall in Hr. auto. }
  destruct m as [| x m'] eqn:Em; [reflexivity |].
  set (parts := @map Z pystr (fun n => [48 + n]) (x :: m')).
  assert (Hchars : Forall (fun c => c = 44 \/ exists d, 0 <= d <= 9 /\ c = 48 + d)
                          (join 44 parts)).
  { apply Forall_join; [left; reflexivity |].
    unfold parts. apply Forall_map. rewrite Forall_forall in Hr |- *.
    intros n Hn. constructor; [| constructor]. right. exists n. split; [auto | reflexivity]. }
  assert (Hns : Forall (fun c => is_space c = false) (join 44 parts)).
  { eapply Forall_impl; [| exact Hchars].
    intros c [-> | [d [Hd ->]]]; [reflexivity | apply digit_char_not_space; exact Hd]. }
  assert (Hnl : has_letter (join 44 parts) = false).
  { unfold has_letter. apply Bool.not_true_iff_false. rewrite existsb_exists.
    intros [c [Hc Hl]]. rewrite Forall_forall in Hchars.
    destruct (Hchars c Hc) as [-> | [d [Hd ->]]]; [discriminate |].
    rewrite digit_char_not_letter in Hl by exact Hd. discriminate. }
  assert (Hsplit : split_on 44 (join 44 parts) = parts).
  { apply split_on_join; [discriminate |].
    unfold parts. apply Forall_map. rewrite Forall_forall in Hr |- *.
    intros n Hn [E | []]. specialize (Hr n Hn). lia. }
  assert (Hne : join 44 parts <> []).
  { unfold parts. simpl. destruct m'; simpl; discriminate. }
  apply expand_digit_string; assumption.
Qed.

(** ** The weekday shifter *)

Lemma shift_unfold (raw : pystr) (k : Z) :
  _shift_weekdays_str raw k =
    (lst <- _expand_weekdays_str raw ;;
     ret (serialize_weekdays (dedup (map (fun n => (n + k mod 7) mod 7) lst)))).
Proof. reflexivity. Qed.

Lemma In_dedup_map (f : Z -> Z) (l : list Z) (n : Z) :
  In n (dedup (map f l)) <-> exists x, In x l /\ n = f x.
Proof.
  rewrite In_dedup, in_map_iff. split.
  - intros [x [<- Hx]]. exists x. split; [exact Hx | reflexivity].
  - intros [x [Hx ->]]. exists x. split; [reflexivity | exact Hx].
Qed.

Lemma dedup_map_mod7_range (k : Z) (l : list Z) :
  Forall (fun n => 0 <= n <= 9) (dedup (map (fun n => (n + k) mod 7) l)).
Proof.
  rewrite Forall_forall. intros n Hn. apply In_dedup_map in Hn.
  destruct Hn as [x [_ ->]]. pose proof (Z.mod_pos_bound (x + k) 7 ltac:(lia)). lia.
Qed.

Lemma dedup_nonempty (l : list Z) : l <> [] -> dedup l <> [].
Proof. destruct l as [| x l]; [congruence |]. intros _. unfold dedup. simpl. discriminate. Qed.

Lemma map_nonempty {A B} (f : A -> B) (l : list A) : l <> [] -> map f l <> [].
Proof. destruct l; [congruence | discriminate]. Qed.

(** The serialized output of a shift, read back. *)
Lemma expand_shift_output (k : Z) (l : list Z) :
  _expand_weekdays_str (serialize_weekdays (dedup (map (fun n => (n + k mod 7) mod 7) l)))
  = inr (match l with
         | [] => range 0 7
         | _ => dedup (map (fun n => (n + k mod 7) mod 7) l)
         end).
Proof.
  rewrite expand_serialize by (apply NoDup_dedup || apply dedup_map_mod7_range).
  destruct l as [| x l]; [reflexivity |].
  destruct (dedup (map (fun n => (n + k mod 7) mod 7) (x :: l))) eqn:E; [| reflexivity].
  exfalso. exact (dedup_nonempty _ (map_nonempty _ _ ltac:(discriminate)) E).
Qed.

Lemma shift_compose_mod (x a b : Z) :
  ((x + a mod 7) mod 7 + b mod 7) mod 7 = (x + (a + b) mod 7 mod 7) mod 7.
Proof.
  rewrite (Z.mod_mod (a + b) 7) by lia.
  transitivity ((x + a + b) mod 7).
  - rewrite Z.add_mod_idemp_r by lia.
    rewrite Z.add_mod_idemp_l by lia.
    replace (x + a mod 7 + b) with (a mod 7 + (x + b)) by ring.
    rewrite Z.add_mod_idemp_l by lia.
    replace (a + (x + b)) with (x + a + b) by ring. reflexivity.
  - rewrite Z.add_mod_idemp_r by lia.
    replace (x + (a + b)) with (x + a + b) by ring. reflexivity.
Qed.

Lemma shift_full_week (b n : Z) :
  (exists x, In x (range 0 7) /\ n = (x + b mod 7) mod 7) <-> In n (range 0 7).
Proof.
  rewrite In_range. split.
  - intros [x [_ ->]]. apply Z.mod_pos_bound. lia.
  - intros Hn. exists ((n - b mod 7) mod 7). split.
    + apply In_range. apply Z.mod_pos_bound. lia.
    + rewrite Z.add_mod_idemp_l by lia.
      replace (n - b mod 7 + b mod 7) with n by ring.
      symmetry. apply Z.mod_small. exact Hn.
Qed.

(** C8. Shifting by 0 gives back the membership set of a weekday
    specification (a non-empty set of members in 0..6), and shifting by [a]
    then by [b] gives the same membership set as shifting once by
    [(a + b) mod 7], for every specification the shifter accepts. *)
Theorem shift_identity_and_composition :
  (forall (raw : pystr) (l : list Z),
     _expand_weekdays_str raw = inr l -> l <> [] -> Forall (fun n => 0 <= n <= 6) l ->
     exists s l', _shift_weekdays_str raw 0 = inr s /\ _expand_weekdays_str s = inr l' /\
                  forall n, In n l' <-> In n l) /\
  (forall (raw : pystr) (a b : Z) (s1 : pystr),
     _shift_weekdays_str raw a = inr s1 ->
     exists s2 s3 l2 l3,
       _shift_weekdays_str s1 b = inr s2 /\
       _shift_weekdays_str raw ((a + b) mod 7) = inr s3 /\
       _expand_weekdays_str s2 = inr l2 /\ _expand_weekdays_str s3 = inr l3 /\
       forall n, In n l2 <-> In n l3).
Proof.
  split.
  - intros raw l Hl Hne Hr.
    rewrite shift_unfold, Hl. cbn [bind ret].
    eexists; eexists. split; [reflexivity |]. split; [apply expand_shift_output |].
    intros n. destruct l as [| x l']; [congruence |].
    rewrite In_dedup_map. split.
    + intros [y [Hy ->]]. rewrite Forall_forall in Hr. specialize (Hr y Hy).
      rewrite Z.add_0_r, Z.mod_small by lia. exact Hy.
    + intros Hn. exists n. split; [exact Hn |].
      rewrite Forall_forall in Hr. specialize (Hr n Hn).
      rewrite Z.add_0_r, Z.mod_small by lia. reflexivity.
  - intros raw a b s1 H1.
    rewrite shift_unfold in H1. rewrite (shift_unfold raw ((a + b) mod 7)).
    destruct (_expand_weekdays_str raw) as [e | l]; [discriminate |].
    cbn [bind ret] in H1 |- *. injection H1 as <-.
    rewrite shift_unfold, expand_shift_output. cbn [bind ret].
    do 4 eexists. split; [reflexivity |]. split; [reflexivity |].
    split; [apply expand_shift_output |]. split; [apply expand_shift_output |].
    intros n. destruct l as [| x l'].
    + (* empty membership set: both sides read back as the full week *)
      cbn [map dedup dedup_from].
      pose proof (shift_full_week b n) as Hf.
      assert (E7 : range 0 7 = full_week) by reflexivity.
      rewrite E7 in Hf |- *. unfold full_week in Hf |- *. cbn iota.
      rewrite In_dedup_map. exact Hf.
    + destruct (dedup (map (fun n0 => (n0 + a mod 7) mod 7) (x :: l'))) as [| y m] eqn:E1.
      { exfalso. exact (dedup_nonempty _ (map_nonempty _ _ ltac:(discriminate)) E1). }
      destruct (dedup (map (fun n0 => (n0 + b mod 7) mod 7) (y :: m))) eqn:E2.
      { exfalso. exact (dedup_nonempty _ (map_nonempty _ _ ltac:(discriminate)) E2). }
      rewrite <- E2, <- E1. rewrite !In_dedup_map. split.
      * intros [y2 [Hy2 ->]]. apply In_dedup_map in Hy2. destruct Hy2 as [w [Hw ->]].
        exists w. split; [exact Hw | apply shift_compose_mod].
      * intros [w [Hw ->]]. exists ((w + a mod 7) mod 7). split.
        -- apply In_dedup_map. exists w. split; [exact Hw | reflexivity].
        -- symmetry. apply shift_compose_mod.
Qed.

Lemma shift_identity_and_composition_witness :
  (_expand_weekdays_str (str_of "1-5") = inr [1; 2; 3; 4; 5] /\
   [1; 2; 3; 4; 5] <> [] /\ Forall (fun n => 0 <= n <= 6) [1; 2; 3; 4; 5]) /\
  (exists s l', _shift_weekdays_str (str_of "1-5") 0 = inr s /\
                _expand_weekdays_str s = inr l' /\ forall n, In n l' <-> In n [1; 2; 3; 4; 5]) /\
  (_shift_weekdays_str (str_of "5-1") 1 = inr (str_of "6,0,1,2")) /\
  (exists s2 s3 l2 l3,
     _shift_weekdays_str (str_of "6,0,1,2") 6 = inr s2 /\
     _shift_weekdays_str (str_of "5-1") ((1 + 6) mod 7) = inr s3 /\
     _expand_weekdays_str s2 = inr l2 /\ _expand_weekdays_str s3 = inr l3 /\
     forall n, In n l2 <-> In n l3).
Proof.
  assert (H1 : _expand_weekdays_str (str_of "1-5") = inr [1; 2; 3; 4; 5]) by reflexivity.
  assert (H2 : [1; 2; 3; 4; 5] <> []) by discriminate.
  assert (H3 : Forall (fun n => 0 <= n <= 6) [1; 2; 3; 4; 5]) by (repeat constructor; lia).
  assert (H4 : _shift_weekdays_str (str_of "5-1") 1 = inr (str_of "6,0,1,2")) by reflexivity.
  split; [split; [exact H1 | split; [exact H2 | exact H3]] |].
  split; [exact (proj1 shift_identity_and_composition _ _ H1 H2 H3) |].
  split; [exact H4 |].
  exact (proj2 shift_identity_and_composition _ 1 6 _ H4).
Defined.

(** ** Namespace selection *)

Lemma pystr_eqb_eq (a b : pystr) : pystr_eqb a b = true <-> a = b.
Proof.
  revert b. induction a as [| x a IH]; intros [| y b]; simpl;
    try (split; congruence).
  rewrite andb_true_iff, Z.eqb_eq, IH. split; [intros [-> ->]; reflexivity | intros H; injection H as -> ->; split; reflexivity].
Qed.

Lemma mem_str_In (x : pystr) (l : list pystr) : mem_str x l = true <-> In x l.
Proof.
  unfold mem_str. rewrite existsb_exists. split.
  - intros [y [Hy E]]. apply pystr_eqb_eq in E. subst. exact Hy.
  - intros H. exists x. split; [exact H | apply pystr_eqb_eq; reflexivity].
Qed.

Definition valid_suffix (t : pystr) : bool := mem_str t VALID_SUFFIXES.

(** The raw parts [normalize_namespaces] loops over ([] when it returns
    early), and the tokens it examines: the non-empty parts, lowered. *)
Definition ns_parts (arg : ns_arg) : list pystr :=
  match arg with
  | NsNone => []
  | NsStr [] => []
  | NsList [] => []
  | NsStr s => resplit (strip s)
  | NsList xs => flat_map (fun x => resplit (strip x)) xs
  end.

Definition ns_tokens (arg : ns_arg) : list pystr :=
  map py_lower (filter nonempty (ns_parts arg)).

Lemma collect_suffixes_spec (parts : list pystr) (w o : list pystr) :
  fst (collect_suffixes parts w o) =
    w ++ filter (fun t => negb (valid_suffix t)) (map py_lower (filter nonempty parts)) /\
  (forall g, In g (snd (collect_suffixes parts w o)) <->
             In g o \/ In g (filter valid_suffix (map py_lower (filter nonempty parts)))).
Proof.
  revert w o. induction parts as [| p ps IH]; intros w o.
  - simpl. rewrite app_nil_r. split; [reflexivity | tauto].
  - destruct p as [| c p'].
    + simpl. apply IH.
    + remember (py_lower (c :: p')) as lp eqn:Elp.
      cbn [collect_suffixes filter nonempty map]. rewrite <- Elp.
      unfold valid_suffix. destruct (mem_str lp VALID_SUFFIXES) eqn:V.
      * cbn [negb].
        destruct (IH w (if mem_str lp o then o else o ++ [lp])) as [IH1 IH2].
        split; [exact IH1 |]. intros g. rewrite IH2. simpl.
        destruct (mem_str lp o) eqn:M.
        -- apply mem_str_In in M. split; [tauto |].
           intros [H | [<- | H]]; tauto.
        -- rewrite in_app_iff. simpl. tauto.
      * cbn [negb].
        destruct (IH (w ++ [lp]) o) as [IH1 IH2].
        split; [rewrite IH1, <- app_assoc; reflexivity | exact IH2].
Qed.

Lemma nil_iff_no_member {A} (l : list A) : l = [] <-> forall x, ~ In x l.
Proof.
  split; [intros -> x [] |]. destruct l as [| x l]; [reflexivity |].
  intros H. exfalso. exact (H x (or_introl eq_refl)).
Qed.

(** C9. Every unrecognized token is dropped with a warning (the warnings
    are exactly the unrecognized tokens, in order) and the recognized ones
    are kept; the selection is the full group set exactly when no token is
    recognized (in particular when the argument is absent or empty), and
    otherwise it is the set of recognized tokens. *)
Theorem normalize_namespaces_drops_unknown (arg : ns_arg) :
  fst (normalize_namespaces arg) =
    filter (fun t => negb (valid_suffix t)) (ns_tokens arg) /\
  (filter valid_suffix (ns_tokens arg) = [] -> snd (normalize_namespaces arg) = VALID_SUFFIXES) /\
  (filter valid_suffix (ns_tokens arg) <> [] ->
     forall g, In g (snd (normalize_namespaces arg)) <-> In g (filter valid_suffix (ns_tokens arg))) /\
  ((arg = NsNone \/ arg = NsStr [] \/ arg = NsList []) -> ns_tokens arg = []).
Proof.
  assert (Hgen : forall parts,
    let r := collect_suffixes parts [] [] in
    fst (fst r, match snd r with [] => VALID_SUFFIXES | _ => snd r end) =
      filter (fun t => negb (valid_suffix t)) (map py_lower (filter nonempty parts)) /\
    (filter valid_suffix (map py_lower (filter nonempty parts)) = [] ->
       snd (fst r, match snd r with [] => VALID_SUFFIXES | _ => snd r end) = VALID_SUFFIXES) /\
    (filter valid_suffix (map py_lower (filter nonempty parts)) <> [] ->
       forall g, In g (snd (fst r, match snd r with [] => VALID_SUFFIXES | _ => snd r end)) <->
                 In g (filter valid_suffix (map py_lower (filter nonempty parts))))).
  { intros parts r. destruct (collect_suffixes_spec parts [] []) as [H1 H2].
    fold r in H1, H2. cbn [fst snd]. split; [exact H1 |].
    assert (Hout : snd r = [] <-> filter valid_suffix (map py_lower (filter nonempty parts)) = []).
    { rewrite !nil_iff_no_member. split; intros H g Hg.
      - apply (H g). apply H2. right. exact Hg.
      - apply H2 in Hg. destruct Hg as [[] | Hg]. exact (H g Hg). }
    split.
    - intros Hv. apply Hout in Hv. rewrite Hv. reflexivity.
    - intros Hv g. cbn [snd].
      assert (Hne : snd r <> []) by (intros E; apply Hv, Hout, E).
      transitivity (In g (snd r)).
      + destruct (snd r); [contradiction | reflexivity].
      + rewrite H2. simpl. tauto. }
  destruct arg as [| [| c s] | [| x xs]];
    try (split; [reflexivity | split; [reflexivity | split; [intros H; exfalso; apply H; reflexivity | reflexivity]]]);
    unfold normalize_namespaces, ns_tokens, ns_parts;
    [ destruct (Hgen (resplit (strip (c :: s)))) as [H1 [H2 H3]]
    | destruct (Hgen (flat_map (fun x0 => resplit (strip x0)) (x :: xs))) as [H1 [H2 H3]] ];
    (destruct (collect_suffixes _ [] []) as [warnings out];
     split; [exact H1 | split; [exact H2 | split; [exact H3 | intros [H | [H | H]]; discriminate]]]).
Qed.

Lemma normalize_namespaces_drops_unknown_witness :
  normalize_namespaces (NsStr (str_of " apps,, foo ROCKET "))
    = ([str_of "foo"], [str_of "apps"; str_of "rocket"]) /\
  filter valid_suffix (ns_tokens (NsStr (str_of " apps,, foo ROCKET "))) <> [] /\
  (forall g, In g (snd (normalize_namespaces (NsStr (str_of " apps,, foo ROCKET ")))) <->
             In g (filter valid_suffix (ns_tokens (NsStr (str_of " apps,, foo ROCKET "))))).
Proof.
  assert (Hv : filter valid_suffix (ns_tokens (NsStr (str_of " apps,, foo ROCKET "))) <> [])
    by (vm_compute; discriminate).
  split; [reflexivity |]. split; [exact Hv |].
  exact (proj1 (proj2 (proj2 (normalize_namespaces_drops_unknown _))) Hv).
Defined.

(** ** Object layout of the assembler *)

Lemma set_eqb_iff (a b : list Z) : set_eqb a b = true <-> (forall n, In n a <-> In n b).
Proof.
  unfold set_eqb. rewrite andb_true_iff, !forallb_forall. split.
  - intros [H1 H2] n. split; intros H; apply memZ_In; auto.
  - intros H. split; intros n Hn; apply memZ_In, H; exact Hn.
Qed.

(** The single combined SleepInfo of a simple group. *)
Definition combined_object (tenant g off_utc on_utc wd : pystr) (o : sleepinfo) : Prop :=
  md_namespace (si_metadata o) = tenant ++ 45 :: g /\
  md_annotations (si_metadata o) = None /\
  sp_weekdays (si_spec o) = wd /\
  sp_sleepAt (si_spec o) = off_utc /\
  sp_wakeUpAt (si_spec o) = Some on_utc.

(** The sleep-only and wake-only SleepInfos of a simple group. *)
Definition paired_objects (tenant g off_utc on_utc wd_sleep wd_wake : pystr)
  (os : list sleepinfo) : Prop :=
  exists s w, os = [s; w] /\
    md_namespace (si_metadata s) = tenant ++ 45 :: g /\
    md_namespace (si_metadata w) = tenant ++ 45 :: g /\
    md_annotations (si_metadata s) = Some (pair_annotations (tenant ++ 45 :: g) ROLE_SLEEP) /\
    md_annotations (si_metadata w) = Some (pair_annotations (tenant ++ 45 :: g) ROLE_WAKE) /\
    sp_weekdays (si_spec s) = wd_sleep /\ sp_sleepAt (si_spec s) = off_utc /\
    sp_wakeUpAt (si_spec s) = None /\
    sp_weekdays (si_spec w) = wd_wake /\ sp_sleepAt (si_spec w) = on_utc /\
    sp_wakeUpAt (si_spec w) = None.

(** The dependency chain of the datastores group: one sleep object and
    three wake objects at [t0], [t1], [t2], all with one pair id. *)
Definition chain_objects (tenant off_utc t0 t1 t2 wd_sleep wd_wake : pystr)
  (os : list sleepinfo) : Prop :=
  exists s w0 w1 w2, os = [s; w0; w1; w2] /\
    md_annotations (si_metadata s)
      = Some (pair_annotations (tenant ++ str_of "-datastores") ROLE_SLEEP) /\
    Forall (fun w => md_annotations (si_metadata w)
                     = Some (pair_annotations (tenant ++ str_of "-datastores") ROLE_WAKE))
           [w0; w1; w2] /\
    sp_weekdays (si_spec s) = wd_sleep /\ sp_sleepAt (si_spec s) = off_utc /\
    Forall (fun o => sp_wakeUpAt (si_spec o) = None) [s; w0; w1; w2] /\
    Forall (fun w => sp_weekdays (si_spec w) = wd_wake) [w0; w1; w2] /\
    sp_sleepAt (si_spec w0) = t0 /\ sp_sleepAt (si_spec w1) = t1 /\
    sp_sleepAt (si_spec w2) = t2.

Lemma datastores_chain (tenant off_utc on_deployments on_pg_hdfs on_pgbouncer wd_sleep wd_wake : pystr) :
  chain_objects tenant off_utc on_pg_hdfs on_pgbouncer on_deployments wd_sleep wd_wake
    (datastores_objs tenant off_utc on_deployments on_pg_hdfs on_pgbouncer wd_sleep wd_wake).
Proof.
  do 4 eexists. split; [reflexivity |].
  repeat split; repeat constructor.
Qed.

Lemma make_datastores_ok (tenant off_utc on_deployments on_pg_hdfs on_pgbouncer wd_sleep wd_wake : pystr)
  (ls lw : list Z) :
  _expand_weekdays_str wd_sleep = inr ls -> _expand_weekdays_str wd_wake = inr lw ->
  make_datastores_native_deploys_split_days tenant off_utc on_deployments on_pg_hdfs on_pgbouncer
    wd_sleep wd_wake
  = inr (datastores_objs tenant off_utc on_deployments on_pg_hdfs on_pgbouncer wd_sleep wd_wake).
Proof.
  intros Hs Hw. unfold make_datastores_native_deploys_split_days.
  rewrite Hs, Hw. cbn [bind]. destruct (set_eqb ls lw); reflexivity.
Qed.

Lemma make_ns_equal (tenant g off_utc on_utc wd_sleep wd_wake : pystr) (ss ssp : bool)
  (ex : list label_matcher) (ls lw : list Z) :
  _expand_weekdays_str wd_sleep = inr ls -> _expand_weekdays_str wd_wake = inr lw ->
  set_eqb ls lw = true ->
  exists o, make_ns_split_days tenant g g off_utc on_utc wd_sleep wd_wake ss ssp [] [] ex = inr [o] /\
            combined_object tenant g off_utc on_utc wd_sleep o.
Proof.
  intros Hs Hw He. unfold make_ns_split_days.
  rewrite Hs, Hw. cbn [bind]. rewrite He.
  eexists. split; [reflexivity |].
  destruct (ex ++ _); repeat split.
Qed.

Lemma make_ns_unequal (tenant g off_utc on_utc wd_sleep wd_wake : pystr) (ss ssp : bool)
  (ex : list label_matcher) (ls lw : list Z) :
  _expand_weekdays_str wd_sleep = inr ls -> _expand_weekdays_str wd_wake = inr lw ->
  set_eqb ls lw = false ->
  exists os, make_ns_split_days tenant g g off_utc on_utc wd_sleep wd_wake ss ssp [] [] ex = inr os /\
             paired_objects tenant g off_utc on_utc wd_sleep wd_wake os.
Proof.
  intros Hs Hw He. unfold make_ns_split_days.
  rewrite Hs, Hw. cbn [bind]. rewrite He.
  eexists. split; [reflexivity |].
  do 2 eexists. split; [reflexivity |].
  destruct (ex ++ _); repeat split.
Qed.

(** The part of the output that comes from group [g]: its layout when [g]
    is selected, nothing otherwise. *)
Definition group_part (sel : list pystr) (g : pystr) (part : list sleepinfo)
  (layout : list sleepinfo -> Prop) : Prop :=
  (allow_ns sel g = true -> layout part) /\ (allow_ns sel g = false -> part = []).

Definition one_combined (tenant : pystr) (p : plan) (g : pystr) (os : list sleepinfo) : Prop :=
  exists o, os = [o] /\
    combined_object tenant g (pl_off_utc p) (pl_on_deployments p) (pl_wd_sleep_utc p) o.

Definition sleep_wake_pair (tenant : pystr) (p : plan) (g : pystr) (os : list sleepinfo) : Prop :=
  paired_objects tenant g (pl_off_utc p) (pl_on_deployments p)
    (pl_wd_sleep_utc p) (pl_wd_wake_utc p) os.

Definition datastores_chain_of (tenant : pystr) (p : plan) (os : list sleepinfo) : Prop :=
  chain_objects tenant (pl_off_utc p) (pl_on_pg_hdfs p) (pl_on_pgbouncer p)
    (pl_on_deployments p) (pl_wd_sleep_utc p) (pl_wd_wake_utc p) os.

Ltac split_groups Hd Ha Hr Hi Hf :=
  repeat match goal with
  | |- context [allow_ns ?sel ?g] =>
      let A := fresh "A" in
      destruct (allow_ns sel g) eqn:A;
      try rewrite Hd; try rewrite Ha; try rewrite Hr; try rewrite Hi; try rewrite Hf;
      cbn [bind ret]
  end.

(** C3. When the UTC-shifted sleep and wake weekday sets are equal, the
    assembler emits, for each selected simple group (apps, rocket,
    intelligence, airflowsso), exactly one object carrying the off time as
    [sleepAt] and the on time as [wakeUpAt], and for the datastores group
    exactly four objects, one sleep and three staggered wakes, sharing one
    pair id. *)
Theorem equal_weekdays_layout (today : Z) (tenant off_local on_local : pystr)
  (weekdays sleepdays wakedays : option pystr) (selected : ns_arg) (p : plan) (ls lw : list Z) :
  prepare today off_local on_local weekdays sleepdays wakedays selected = inr p ->
  _expand_weekdays_str (pl_wd_sleep_utc p) = inr ls ->
  _expand_weekdays_str (pl_wd_wake_utc p) = inr lw ->
  (forall n, In n ls <-> In n lw) ->
  exists ds apps rocket intel airflow,
    make_all_objects_for_tenant today tenant off_local on_local weekdays sleepdays wakedays selected
      = inr (ds ++ apps ++ rocket ++ intel ++ airflow) /\
    group_part (pl_selected p) (str_of "datastores") ds (datastores_chain_of tenant p) /\
    group_part (pl_selected p) (str_of "apps") apps (one_combined tenant p (str_of "apps")) /\
    group_part (pl_selected p) (str_of "rocket") rocket (one_combined tenant p (str_of "rocket")) /\
    group_part (pl_selected p) (str_of "intelligence") intel
      (one_combined tenant p (str_of "intelligence")) /\
    group_part (pl_selected p) (str_of "airflowsso") airflow
      (one_combined tenant p (str_of "airflowsso")).
Proof.
  intros Hp Hs Hw Heq. apply set_eqb_iff in Heq.
  destruct (make_ns_equal tenant (str_of "apps") (pl_off_utc p) (pl_on_deployments p)
              (pl_wd_sleep_utc p) (pl_wd_wake_utc p) false false [] ls lw Hs Hw Heq)
    as [oa [Ha Pa]].
  destruct (make_ns_equal tenant (str_of "rocket") (pl_off_utc p) (pl_on_deployments p)
              (pl_wd_sleep_utc p) (pl_wd_wake_utc p) false false [] ls lw Hs Hw Heq)
    as [orc [Hr Pr]].
  destruct (make_ns_equal tenant (str_of "intelligence") (pl_off_utc p) (pl_on_deployments p)
              (pl_wd_sleep_utc p) (pl_wd_wake_utc p) false false [] ls lw Hs Hw Heq)
    as [oi [Hi Pi]].
  destruct (make_ns_equal tenant (str_of "airflowsso") (pl_off_utc p) (pl_on_deployments p)
              (pl_wd_sleep_utc p) (pl_wd_wake_utc p) true true get_exclude_pg_hdfs_refs
              ls lw Hs Hw Heq)
    as [of [Hf Pf]].
  pose proof (make_datastores_ok tenant (pl_off_utc p) (pl_on_deployments p) (pl_on_pg_hdfs p)
                (pl_on_pgbouncer p) (pl_wd_sleep_utc p) (pl_wd_wake_utc p) ls lw Hs Hw) as Hd.
  set (sel := pl_selected p).
  exists (if allow_ns sel (str_of "datastores")
          then datastores_objs tenant (pl_off_utc p) (pl_on_deployments p) (pl_on_pg_hdfs p)
                 (pl_on_pgbouncer p) (pl_wd_sleep_utc p) (pl_wd_wake_utc p)
          else []),
         (if allow_ns sel (str_of "apps") then [oa] else []),
         (if allow_ns sel (str_of "rocket") then [orc] else []),
         (if allow_ns sel (str_of "intelligence") then [oi] else []),
         (if allow_ns sel (str_of "airflowsso") then [of] else []).
  split.
  - unfold make_all_objects_for_tenant. rewrite Hp. cbn [bind]. unfold assemble. cbv zeta.
    fold sel. split_groups Hd Ha Hr Hi Hf; reflexivity.
  - unfold group_part.
    repeat split; intros A; rewrite A; try reflexivity;
      try apply datastores_chain;
      try (eexists; split; [reflexivity | eassumption]).
Qed.

(** C4. When the UTC-shifted sleep and wake weekday sets differ, the
    assembler emits, for each selected simple group (apps, rocket,
    intelligence, airflowsso), a sleep-only object (off time in [sleepAt],
    sleep weekdays, no [wakeUpAt]) followed by a wake-only object (on time
    in [sleepAt], wake weekdays, no [wakeUpAt]); both carry the pair id
    [tenant-group], with pair role sleep and wake respectively. *)
Theorem unequal_weekdays_layout (today : Z) (tenant off_local on_local : pystr)
  (weekdays sleepdays wakedays : option pystr) (selected : ns_arg) (p : plan) (ls lw : list Z) :
  prepare today off_local on_local weekdays sleepdays wakedays selected = inr p ->
  _expand_weekdays_str (pl_wd_sleep_utc p) = inr ls ->
  _expand_weekdays_str (pl_wd_wake_utc p) = inr lw ->
  ~ (forall n, In n ls <-> In n lw) ->
  exists ds apps rocket intel airflow,
    make_all_objects_for_tenant today tenant off_local on_local weekdays sleepdays wakedays selected
      = inr (ds ++ apps ++ rocket ++ intel ++ airflow) /\
    group_part (pl_selected p) (str_of "datastores") ds (datastores_chain_of tenant p) /\
    group_part (pl_selected p) (str_of "apps") apps (sleep_wake_pair tenant p (str_of "apps")) /\
    group_part (pl_selected p) (str_of "rocket") rocket (sleep_wake_pair tenant p (str_of "rocket")) /\
    group_part (pl_selected p) (str_of "intelligence") intel
      (sleep_wake_pair tenant p (str_of "intelligence")) /\
    group_part (pl_selected p) (str_of "airflowsso") airflow
      (sleep_wake_pair tenant p (str_of "airflowsso")).
Proof.
  intros Hp Hs Hw Hne.
  assert (Heq : set_eqb ls lw = false).
  { destruct (set_eqb ls lw) eqn:E; [| reflexivity].
    exfalso. apply Hne, set_eqb_iff, E. }
  destruct (make_ns_unequal tenant (str_of "apps") (pl_off_utc p) (pl_on_deployments p)
              (pl_wd_sleep_utc p) (pl_wd_wake_utc p) false false [] ls lw Hs Hw Heq)
    as [oa [Ha Pa]].
  destruct (make_ns_unequal tenant (str_of "rocket") (pl_off_utc p) (pl_on_deployments p)
              (pl_wd_sleep_utc p) (pl_wd_wake_utc p) false false [] ls lw Hs Hw Heq)
    as [orc [Hr Pr]].
  destruct (make_ns_unequal tenant (str_of "intelligence") (pl_off_utc p) (pl_on_deployments p)
              (pl_wd_sleep_utc p) (pl_wd_wake_utc p) false false [] ls lw Hs Hw Heq)
    as [oi [Hi Pi]].
  destruct (make_ns_unequal tenant (str_of "airflowsso") (pl_off_utc p) (pl_on_deployments p)
              (pl_wd_sleep_utc p) (pl_wd_wake_utc p) true true get_exclude_pg_hdfs_refs
              ls lw Hs Hw Heq)
    as [of [Hf Pf]].
  pose proof (make_datastores_ok tenant (pl_off_utc p) (pl_on_deployments p) (pl_on_pg_hdfs p)
                (pl_on_pgbouncer p) (pl_wd_sleep_utc p) (pl_wd_wake_utc p) ls lw Hs Hw) as Hd.
  set (sel := pl_selected p).
  exists (if allow_ns sel (str_of "datastores")
          then datastores_objs tenant (pl_off_utc p) (pl_on_deployments p) (pl_on_pg_hdfs p)
                 (pl_on_pgbouncer p) (pl_wd_sleep_utc p) (pl_wd_wake_utc p)
          else []),
         (if allow_ns sel (str_of "apps") then oa else []),
         (if allow_ns sel (str_of "rocket") then orc else []),
         (if allow_ns sel (str_of "intelligence") then oi else []),
         (if allow_ns sel (str_of "airflowsso") then of else []).
  split.
  - unfold make_all_objects_for_tenant. rewrite Hp. cbn [bind]. unfold assemble. cbv zeta.
    fold sel. split_groups Hd Ha Hr Hi Hf; reflexivity.
  - unfold group_part.
    repeat split; intros A; rewrite A; try reflexivity;
      try apply datastores_chain; try eassumption.
Qed.

Lemma equal_weekdays_layout_witness :
  let p := Plan (str_of "15:00") (str_of "11:00") (str_of "11:05") (str_of "11:07")
             (str_of "0,1,2,3,4,5,6") (str_of "0,1,2,3,4,5,6") VALID_SUFFIXES in
  prepare 739000 (str_of "10:00") (str_of "06:00") (Some (str_of "0-6")) None None NsNone = inr p /\
  _expand_weekdays_str (pl_wd_sleep_utc p) = inr full_week /\
  _expand_weekdays_str (pl_wd_wake_utc p) = inr full_week /\
  exists ds apps rocket intel airflow,
    make_all_objects_for_tenant 739000 (str_of "bdl") (str_of "10:00") (str_of "06:00")
      (Some (str_of "0-6")) None None NsNone
      = inr (ds ++ apps ++ rocket ++ intel ++ airflow) /\
    group_part (pl_selected p) (str_of "datastores") ds (datastores_chain_of (str_of "bdl") p) /\
    group_part (pl_selected p) (str_of "apps") apps (one_combined (str_of "bdl") p (str_of "apps")) /\
    group_part (pl_selected p) (str_of "rocket") rocket
      (one_combined (str_of "bdl") p (str_of "rocket")) /\
    group_part (pl_selected p) (str_of "intelligence") intel
      (one_combined (str_of "bdl") p (str_of "intelligence")) /\
    group_part (pl_selected p) (str_of "airflowsso") airflow
      (one_combined (str_of "bdl") p (str_of "airflowsso")).
Proof.
  intros p.
  assert (Hp : prepare 739000 (str_of "10:00") (str_of "06:00") (Some (str_of "0-6")) None None NsNone
               = inr p) by (vm_compute; reflexivity).
  assert (Hs : _expand_weekdays_str (pl_wd_sleep_utc p) = inr full_week) by (vm_compute; reflexivity).
  assert (Hw : _expand_weekdays_str (pl_wd_wake_utc p) = inr full_week) by (vm_compute; reflexivity).
  split; [exact Hp |]. split; [exact Hs |]. split; [exact Hw |].
  exact (equal_weekdays_layout 739000 (str_of "bdl") (str_of "10:00") (str_of "06:00")
           (Some (str_of "0-6")) None None NsNone p full_week full_week Hp Hs Hw
           (fun n => iff_refl (In n full_week))).
Defined.

Lemma unequal_weekdays_layout_witness :
  let p := Plan (str_of "03:00") (str_of "11:00") (str_of "11:05") (str_of "11:07")
             (str_of "2,3,4,5,6") (str_of "1,2,3,4,5") VALID_SUFFIXES in
  prepare 739000 (str_of "22:00") (str_of "06:00") (Some (str_of "lunes-viernes")) None None NsNone
    = inr p /\
  _expand_weekdays_str (pl_wd_sleep_utc p) = inr [2; 3; 4; 5; 6] /\
  _expand_weekdays_str (pl_wd_wake_utc p) = inr [1; 2; 3; 4; 5] /\
  ~ (forall n, In n [2; 3; 4; 5; 6] <-> In n [1; 2; 3; 4; 5]) /\
  exists ds apps rocket intel airflow,
    make_all_objects_for_tenant 739000 (str_of "bdl") (str_of "22:00") (str_of "06:00")
      (Some (str_of "lunes-viernes")) None None NsNone
      = inr (ds ++ apps ++ rocket ++ intel ++ airflow) /\
    group_part (pl_selected p) (str_of "datastores") ds (datastores_chain_of (str_of "bdl") p) /\
    group_part (pl_selected p) (str_of "apps") apps
      (sleep_wake_pair (str_of "bdl") p (str_of "apps")) /\
    group_part (pl_selected p) (str_of "rocket") rocket
      (sleep_wake_pair (str_of "bdl") p (str_of "rocket")) /\
    group_part (pl_selected p) (str_of "intelligence") intel
      (sleep_wake_pair (str_of "bdl") p (str_of "intelligence")) /\
    group_part (pl_selected p) (str_of "airflowsso") airflow
      (sleep_wake_pair (str_of "bdl") p (str_of "airflowsso")).
Proof.
  intros p.
  assert (Hp : prepare 739000 (str_of "22:00") (str_of "06:00") (Some (str_of "lunes-viernes"))
                 None None NsNone = inr p) by (vm_compute; reflexivity).
  assert (Hs : _expand_weekdays_str (pl_wd_sleep_utc p) = inr [2; 3; 4; 5; 6])
    by (vm_compute; reflexivity).
  assert (Hw : _expand_weekdays_str (pl_wd_wake_utc p) = inr [1; 2; 3; 4; 5])
    by (vm_compute; reflexivity).
  assert (Hne : ~ (forall n, In n [2; 3; 4; 5; 6] <-> In n [1; 2; 3; 4; 5])).
  { intros H. assert (H6 : In 6 [1; 2; 3; 4; 5]) by (apply H; simpl; tauto).
    simpl in H6. lia. }
  split; [exact Hp |]. split; [exact Hs |]. split; [exact Hw |]. split; [exact Hne |].
  exact (unequal_weekdays_layout 739000 (str_of "bdl") (str_of "22:00") (str_of "06:00")
           (Some (str_of "lunes-viernes")) None None NsNone p _ _ Hp Hs Hw Hne).
Defined.

(** ** Acceptance of weekday specifications *)

Lemma split1_some (sep : Z) (s a b : pystr) :
  split1 sep s = Some (a, b) -> s = a ++ sep :: b /\ ~ In sep a.
Proof.
  revert a b. induction s as [| c r IH]; intros a b; simpl; [discriminate |].
  destruct (c =? sep) eqn:E.
  - intros H. injection H as <- <-. apply Z.eqb_eq in E. subst. split; [reflexivity | simpl; tauto].
  - destruct (split1 sep r) as [[a' b'] |] eqn:S; [| discriminate].
    intros H. injection H as <- <-. destruct (IH a' b' eq_refl) as [-> Hn].
    apply Z.eqb_neq in E. split; [reflexivity |]. simpl. intros [H | H]; [congruence | tauto].
Qed.

Lemma split1_none (sep : Z) (s : pystr) : split1 sep s = None -> ~ In sep s.
Proof.
  induction s as [| c r IH]; simpl; [tauto |].
  destruct (c =? sep) eqn:E; [discriminate |].
  destruct (split1 sep r) as [[a b] |]; [discriminate |].
  intros _ [H | H]; [apply Z.eqb_neq in E; congruence | exact (IH eq_refl H)].
Qed.

Lemma split1_app (sep : Z) (a b : pystr) : ~ In sep a -> split1 sep (a ++ sep :: b) = Some (a, b).
Proof.
  induction a as [| c a IH]; simpl; intros Hn.
  - rewrite Z.eqb_refl. reflexivity.
  - destruct (c =? sep) eqn:E; [apply Z.eqb_eq in E; tauto |].
    rewrite IH by tauto. reflexivity.
Qed.

Lemma day_lookup_In (k : pystr) (v : Z) : day_lookup k = Some v -> In (k, v) DAYS_ES.
Proof.
  unfold day_lookup. destruct (find _ DAYS_ES) as [[k' v'] |] eqn:F; [| discriminate].
  intros H. injection H as <-. apply find_some in F. destruct F as [Hin Heq].
  apply pystr_eqb_eq in Heq. simpl in Heq. subst. exact Hin.
Qed.

Lemma day_keys_no_dash : forallb (fun e => negb (memZ 45 (fst e))) DAYS_ES = true.
Proof. vm_compute. reflexivity. Qed.

Lemma day_lookup_no_dash (k : pystr) : day_lookup k <> None -> ~ In 45 k.
Proof.
  destruct (day_lookup k) as [v |] eqn:L; [| tauto]. intros _ Hk.
  apply day_lookup_In in L.
  pose proof (proj1 (forallb_forall _ _) day_keys_no_dash _ L) as H. simpl in H.
  apply negb_true_iff in H. apply (proj2 (memZ_In 45 k)) in Hk. congruence.
Qed.

(** A comma-separated part the name path accepts: a day name, or two day
    names joined by '-'. *)
Definition day_token (p : pystr) : Prop :=
  day_lookup p <> None \/
  exists a b, p = a ++ 45 :: b /\ day_lookup a <> None /\ day_lookup b <> None.

Lemma day_part_ok (p : pystr) : (exists l, day_part p = inr l) <-> day_token p.
Proof.
  unfold day_part, day_token. destruct (split1 45 p) as [[a b] |] eqn:S.
  - destruct (split1_some _ _ _ _ S) as [Ep Ha].
    assert (Lp : day_lookup p = None).
    { destruct (day_lookup p) eqn:L; [| reflexivity]. exfalso.
      apply (day_lookup_no_dash p); [congruence |]. rewrite Ep. apply in_or_app. simpl. tauto. }
    rewrite Lp. split.
    + destruct (day_lookup a) eqn:La, (day_lookup b) eqn:Lb;
        cbn; intros [l Hl]; try discriminate.
      right. exists a, b. repeat split; congruence.
    + intros [H | [a' [b' [E' [Ha' Hb']]]]]; [congruence |].
      rewrite E', split1_app in S by (apply day_lookup_no_dash; exact Ha').
      injection S as <- <-.
      destruct (day_lookup a'), (day_lookup b'); try congruence. eexists. reflexivity.
  - pose proof (split1_none _ _ S) as Hn. split.
    + destruct (day_lookup p); cbn; intros [l Hl]; [left; congruence | discriminate].
    + intros [H | [a' [b' [E' _]]]].
      * destruct (day_lookup p); [eexists; reflexivity | congruence].
      * exfalso. apply Hn. rewrite E'. apply in_or_app. simpl. tauto.
Qed.

Lemma day_part_error (p : pystr) (e : exn) : day_part p = inl e -> e = ValueError.
Proof.
  unfold day_part. destruct (split1 45 p) as [[a b] |].
  - destruct (day_lookup a), (day_lookup b); cbv [ret raise]; congruence.
  - destruct (day_lookup p); cbv [ret raise]; congruence.
Qed.

Lemma extend_all_fails (f : pystr -> res (list Z)) (parts : list pystr) :
  (exists e, extend_all f parts = inl e) <-> (exists p, In p parts /\ exists e, f p = inl e).
Proof.
  induction parts as [| p ps IH]; cbn [extend_all].
  - split; [intros [e H]; discriminate | intros [p [[] _]]].
  - destruct (f p) as [e | xs] eqn:F; cbn [bind ret].
    + split; [intros _; exists p; split; [left; reflexivity | exists e; exact F] |].
      intros _. exists e. reflexivity.
    + destruct (extend_all f ps) as [e' | ys] eqn:R; cbn [bind ret].
      * split; [| intros _; exists e'; reflexivity].
        intros _. destruct (proj1 IH (ex_intro _ e' eq_refl)) as [q [Hq Fq]].
        exists q. split; [right; exact Hq | exact Fq].
      * split; [intros [e H]; discriminate |].
        intros [q [[<- | Hq] [e Fq]]]; [congruence |].
        destruct (proj2 IH (ex_intro _ q (conj Hq (ex_intro _ e Fq)))) as [e' H]. discriminate.
Qed.

Lemma extend_all_error (f : pystr -> res (list Z)) (parts : list pystr) (e : exn) :
  (forall p e', f p = inl e' -> e' = ValueError) ->
  extend_all f parts = inl e -> e = ValueError.
Proof.
  intros Hf. induction parts as [| p ps IH]; cbn [extend_all]; [discriminate |].
  destruct (f p) as [e' | xs] eqn:F; cbn [bind ret].
  - intros H. injection H as <-. exact (Hf p e' F).
  - destruct (extend_all f ps); cbn [bind ret]; [exact IH | discriminate].
Qed.

(** C6 (counterexample). "lunes,3" consists of a day name and a numeric
    token, and "10" is made of digits only, yet both are rejected with
    ValueError: the numeric pass-through only takes single digits joined by
    '-' or ',', and anything else goes down the day-name path, where "3" and
    "10" are not day names. *)
Lemma mixed_or_multidigit_rejected :
  human_weekdays_to_kube (Some (str_of "lunes,3")) = inl ValueError /\
  human_weekdays_to_kube (Some (str_of "10")) = inl ValueError.
Proof. split; vm_compute; reflexivity. Qed.

(** C6 (amended). For a weekday specification whose stripped form [raw] is
    non-empty: if [raw] is in the numeric form (single digits separated by
    '-' or ',', with optional whitespace) it is accepted and returned with
    its U+0020 spaces removed; otherwise parsing fails if and only if some
    non-empty comma-separated part of the lower-cased, space-free,
    accent-stripped text is neither a day name nor two day names joined by
    '-'. A blank specification yields "0-6", and every failure is a
    ValueError. *)
Theorem weekday_parse_acceptance (s : option pystr) :
  let raw := strip (match s with Some x => x | None => [] end) in
  let parts := filter nonempty (split_on 44 (_strip_accents (remove_spaces (py_lower raw)))) in
  (raw = [] -> human_weekdays_to_kube s = inr (str_of "0-6")) /\
  (raw <> [] -> numeric_form raw = true ->
     human_weekdays_to_kube s = inr (remove_spaces raw)) /\
  (raw <> [] -> numeric_form raw = false ->
     ((exists e, human_weekdays_to_kube s = inl e) <->
      exists p, In p parts /\ ~ day_token p)) /\
  (forall e, human_weekdays_to_kube s = inl e -> e = ValueError).
Proof.
  intros raw parts.
  assert (Hraw : human_weekdays_to_kube s =
    match raw with
    | [] => ret (str_of "0-6")
    | _ =>
        if numeric_form raw then ret (remove_spaces raw)
        else (nums <- extend_all day_part parts ;; ret (join 44 (map py_str (dedup nums))))
    end) by reflexivity.
  assert (Hname : numeric_form raw = false ->
            ((exists e, extend_all day_part parts = inl e) <->
             exists p, In p parts /\ ~ day_token p)).
  { intros _. rewrite extend_all_fails. split.
    - intros [p [Hp [e He]]]. exists p. split; [exact Hp |].
      rewrite <- day_part_ok. intros [l Hl]. congruence.
    - intros [p [Hp Hn]]. exists p. split; [exact Hp |].
      destruct (day_part p) as [e | l] eqn:D; [exists e; reflexivity |].
      exfalso. apply Hn, day_part_ok. exists l. exact D. }
  split; [| split; [| split]].
  - intros E. rewrite Hraw, E. reflexivity.
  - intros Ne N. rewrite Hraw. destruct raw as [| c r]; [congruence |]. rewrite N. reflexivity.
  - intros Ne N. split.
    + intros [e He]. apply (proj1 (Hname N)). rewrite Hraw in He.
      destruct raw as [| c r]; [congruence |]. rewrite N in He.
      destruct (extend_all day_part parts) as [e' | l]; cbn [bind ret] in He; [| discriminate].
      exists e'. reflexivity.
    + intros Hex. destruct (proj2 (Hname N) Hex) as [e He].
      exists e. rewrite Hraw. destruct raw as [| c r]; [congruence |]. rewrite N, He. reflexivity.
  - intros e. rewrite Hraw. destruct raw as [| c r]; [cbv [ret]; discriminate |].
    destruct (numeric_form (c :: r)); [cbv [ret]; discriminate |].
    destruct (extend_all day_part parts) as [e' | l] eqn:X; cbn [bind ret]; [| discriminate].
    intros H. injection H as <-. exact (extend_all_error _ _ _ day_part_error X).
Qed.

Lemma weekday_parse_acceptance_witness :
  numeric_form (str_of "lunes,3") = false /\
  exists e, human_weekdays_to_kube (Some (str_of "lunes,3")) = inl e.
Proof.
  assert (Nf : numeric_form (str_of "lunes,3") = false) by reflexivity.
  split; [exact Nf |].
  pose proof (weekday_parse_acceptance (Some (str_of "lunes,3"))) as W.
  cbv zeta in W. destruct W as [_ [_ [W _]]].
  apply (W ltac:(vm_compute; discriminate) Nf).
  exists (str_of "3"). split.
  - vm_compute. right. left. reflexivity.
  - unfold day_token. intros [H | [a [b [E _]]]].
    + apply H. reflexivity.
    + destruct a as [| x [| y a]]; simpl in E; congruence.
Defined.

(** ** Time helpers: re-parsing, composition, round trips *)

Lemma parse_hhmm_bounds (s : pystr) (hh mm : Z) :
  parse_hhmm s = inr (hh, mm) -> 0 <= hh <= 23 /\ 0 <= mm <= 59.
Proof.
  unfold parse_hhmm. intros H.
  destruct (split_on 58 s) as [| a [| b [| ? ?]]]; try discriminate.
  destruct (py_int a) as [| h]; try discriminate. cbn [bind] in H.
  destruct (py_int b) as [| m]; try discriminate. cbn [bind] in H.
  destruct ((0 <=? h) && (h <=? 23) && (0 <=? m) && (m <=? 59)) eqn:E; try discriminate.
  injection H as <- <-.
  repeat rewrite andb_true_iff in E. rewrite !Z.leb_le in E. lia.
Qed.

Definition parse_strftime_ok (m : Z) : bool :=
  match parse_hhmm (strftime_hhmm m) with
  | inr (a, b) => (a =? m / 60) && (b =? m mod 60)
  | inl _ => false
  end.

Lemma parse_strftime_ok_all : forallb parse_strftime_ok (range 0 minutes_per_day) = true.
Proof. vm_compute. reflexivity. Qed.

(** Every "%H:%M" the code prints parses back to its hour and minute. *)
Lemma parse_strftime (m : Z) :
  0 <= m < minutes_per_day -> parse_hhmm (strftime_hhmm m) = inr (m / 60, m mod 60).
Proof.
  intros Hm. apply In_range in Hm.
  pose proof (proj1 (forallb_forall _ _) parse_strftime_ok_all m Hm) as H.
  unfold parse_strftime_ok in H.
  destruct (parse_hhmm (strftime_hhmm m)) as [| [a b]]; [discriminate |].
  apply andb_true_iff in H. destruct H as [Ha Hb].
  apply Z.eqb_eq in Ha, Hb. subst. reflexivity.
Qed.

Lemma minute_of_day_split (m : Z) : m / 60 * 60 + m mod 60 = m.
Proof. pose proof (Z.div_mod m 60 ltac:(lia)). lia. Qed.


(** X2. For a local zone with a fixed UTC offset, converting a valid local
    HH:MM to UTC ([to_utc_hhmm]) and back for display
    ([utc_hhmm_to_local]) gives the same time, zero-padded, on any dates;
    [to_utc_hhmm] agrees with the time part of [to_utc_hhmm_and_dayshift];
    and an empty UTC string is displayed as the empty string. *)
Theorem utc_local_round_trip (tz_offset today today' : Z) (s : pystr) (hh mm : Z) :
  parse_hhmm s = inr (hh, mm) ->
  (u <- to_utc_hhmm (fun _ _ => tz_offset) today s ;; utc_hhmm_to_local tz_offset today' u)
    = inr (strftime_hhmm (hh * 60 + mm)) /\
  to_utc_hhmm (fun _ _ => tz_offset) today s
    = (r <- to_utc_hhmm_and_dayshift (fun _ _ => tz_offset) today s ;; ret (fst r)) /\
  utc_hhmm_to_local tz_offset today' [] = inr [].
Proof.
  intros H. pose proof (parse_hhmm_bounds s hh mm H) as Hb.
  assert (Hpos : 0 < minutes_per_day) by (unfold minutes_per_day; lia).
  split; [| split; [unfold to_utc_hhmm, to_utc_hhmm_and_dayshift; rewrite H; reflexivity
                   | reflexivity]].
  unfold to_utc_hhmm. rewrite H. cbn [bind ret].
  set (u := (today * minutes_per_day + (hh * 60 + mm) - tz_offset) mod minutes_per_day).
  pose proof (Z.mod_pos_bound (today * minutes_per_day + (hh * 60 + mm) - tz_offset)
                minutes_per_day Hpos) as Hu. fold u in Hu.
  unfold utc_hhmm_to_local.
  assert (Hne : strftime_hhmm u <> []) by (unfold strftime_hhmm, two_digits; discriminate).
  destruct (strftime_hhmm u) as [| c r] eqn:E; [contradiction |]. rewrite <- E.
  rewrite (parse_strftime u Hu). cbn [bind ret]. f_equal. f_equal.
  replace (today' * minutes_per_day + u / 60 * 60 + u mod 60 + tz_offset)
    with (today' * minutes_per_day + (u + tz_offset))
    by (pose proof (minute_of_day_split u); lia).
  rewrite mod_day_shift. unfold u. rewrite Z.add_mod_idemp_l by lia.
  replace (today * minutes_per_day + (hh * 60 + mm) - tz_offset + tz_offset)
    with (today * minutes_per_day + (hh * 60 + mm)) by ring.
  rewrite mod_day_shift, Z.mod_small; [reflexivity | unfold minutes_per_day; lia].
Qed.

Lemma utc_local_round_trip_witness :
  parse_hhmm (str_of "7:5") = inr (7, 5) /\
  (u <- to_utc_hhmm ZoneBogota 739000 (str_of "7:5") ;; utc_hhmm_to_local (-300) 739001 u)
    = inr (str_of "07:05").
Proof.
  assert (H : parse_hhmm (str_of "7:5") = inr (7, 5)) by reflexivity.
  split; [exact H |].
  exact (proj1 (utc_local_round_trip (-300) 739000 739001 (str_of "7:5") 7 5 H)).
Defined.

(** ** The weekday display *)

Lemma kube_chunk_digit (n : Z) : 0 <= n <= 9 -> kube_chunk (strip [48 + n]) = inr [n].
Proof. intros H. enum_digit n; reflexivity. Qed.

Lemma extend_all_kube_digits (l : list Z) :
  Forall (fun n => 0 <= n <= 9) l ->
  extend_all (fun chunk => kube_chunk (strip chunk)) (map (fun n => [48 + n]) l) = inr l.
Proof.
  induction 1 as [| n l Hn Hl IH]; [reflexivity |].
  cbn [extend_all map]. rewrite kube_chunk_digit by exact Hn. cbn [bind]. rewrite IH. reflexivity.
Qed.

(** The serialized form of a non-empty list of single digits, as
    [expand_serialize] takes it apart. *)
Lemma serialize_digits_shape (m : list Z) :
  m <> [] -> Forall (fun n => 0 <= n <= 9) m ->
  serialize_weekdays m <> [] /\
  strip (serialize_weekdays m) = serialize_weekdays m /\
  split_on 44 (serialize_weekdays m) = map (fun n => [48 + n]) m.
Proof.
  intros Hne Hr. unfold serialize_weekdays.
  rewrite (map_ext_in py_str (fun n => [48 + n])).
  2:{ intros n Hn. apply py_str_digit. rewrite Forall_forall in Hr. auto. }
  set (parts := @map Z pystr (fun n => [48 + n]) m).
  assert (Hchars : Forall (fun c => c = 44 \/ exists d, 0 <= d <= 9 /\ c = 48 + d)
                          (join 44 parts)).
  { apply Forall_join; [left; reflexivity |].
    unfold parts. apply Forall_map. rewrite Forall_forall in Hr |- *.
    intros n Hn. constructor; [| constructor]. right. exists n. split; [auto | reflexivity]. }
  assert (Hns : Forall (fun c => is_space c = false) (join 44 parts)).
  { eapply Forall_impl; [| exact Hchars].
    intros c [-> | [d [Hd ->]]]; [reflexivity | apply digit_char_not_space; exact Hd]. }
  split; [| split; [apply strip_nospace; exact Hns |]].
  - destruct m as [| x m']; [congruence |]. unfold parts. simpl.
    destruct m'; simpl; discriminate.
  - apply split_on_join.
    + destruct m; [congruence | discriminate].
    + unfold parts. apply Forall_map. rewrite Forall_forall in Hr |- *.
      intros n Hn [E | []]. specialize (Hr n Hn). lia.
Qed.

Lemma kube_weekdays_serialize (l : list Z) :
  l <> [] -> Forall (fun n => 0 <= n <= 9) l ->
  kube_weekdays_to_human (Some (serialize_weekdays l)) = inr (join 44 (map day_display (dedup l))).
Proof.
  intros Hne Hr. destruct (serialize_digits_shape l Hne Hr) as [Hs [Hstrip Hsplit]].
  unfold kube_weekdays_to_human. rewrite Hstrip.
  destruct (serialize_weekdays l) as [| c r] eqn:E; [congruence |].
  rewrite Hsplit, extend_all_kube_digits by exact Hr. reflexivity.
Qed.

(** The text the name path of [human_weekdays_to_kube] splits:
    [_strip_accents(raw.lower().replace(" ", ""))]. *)
Definition name_text (s : pystr) : pystr := _strip_accents (remove_spaces (py_lower s)).

Lemma name_text_app (a b : pystr) : name_text (a ++ 44 :: b) = name_text a ++ 44 :: name_text b.
Proof.
  unfold name_text, _strip_accents, remove_spaces, py_lower.
  rewrite map_app, filter_app, flat_map_app, filter_app. reflexivity.
Qed.

Lemma name_text_join (ps : list pystr) : name_text (join 44 ps) = join 44 (map name_text ps).
Proof.
  induction ps as [| p ps IH]; [reflexivity |].
  destruct ps as [| p' ps']; [reflexivity |].
  change (join 44 (p :: p' :: ps')) with (p ++ 44 :: join 44 (p' :: ps')).
  rewrite name_text_app, IH. reflexivity.
Qed.

Lemma human_name_path (raw : pystr) :
  strip raw = raw -> raw <> [] -> numeric_form raw = false ->
  human_weekdays_to_kube (Some raw) =
    (nums <- extend_all day_part (filter nonempty (split_on 44 (name_text raw))) ;;
     ret (join 44 (map py_str (dedup nums)))).
Proof.
  intros Hs Hne Hn. unfold human_weekdays_to_kube. rewrite Hs.
  destruct raw as [| c r]; [congruence |]. rewrite Hn. reflexivity.
Qed.

(** What the display of one day number satisfies, for 0..6. *)
Definition display_ok (n : Z) : bool :=
  let d := day_display n in
  forallb (fun c => negb (is_space c) && negb (c =? 44)) d &&
  match d with c :: _ => negb (is_digit c) | [] => false end &&
  match day_part (name_text d) with inr [k] => k =? n | _ => false end &&
  nonempty (name_text d) && negb (memZ 44 (name_text d)) &&
  existsb (fun e => pystr_eqb (fst e) d && (snd e =? n)) DAYS_ES.

Lemma display_ok_all : forallb display_ok (range 0 7) = true.
Proof. vm_compute. reflexivity. Qed.

Lemma display_ok_day (n : Z) :
  0 <= n <= 6 ->
  Forall (fun c => is_space c = false /\ c <> 44) (day_display n) /\
  (exists c r, day_display n = c :: r /\ is_digit c = false) /\
  day_part (name_text (day_display n)) = inr [n] /\
  name_text (day_display n) <> [] /\ ~ In 44 (name_text (day_display n)) /\
  In (day_display n, n) DAYS_ES.
Proof.
  intros Hn. assert (H : display_ok n = true).
  { apply (proj1 (forallb_forall _ _) display_ok_all). apply In_range. lia. }
  unfold display_ok in H. cbv zeta in H. rewrite !andb_true_iff in H.
  destruct H as [[[[[H1 H2] H3] H4] H5] H6]. split; [| split; [| split; [| split; [| split]]]].
  - rewrite Forall_forall. intros c Hc. pose proof (proj1 (forallb_forall _ _) H1 c Hc) as E.
    rewrite andb_true_iff, !negb_true_iff in E. destruct E as [E1 E2].
    split; [exact E1 | apply Z.eqb_neq, E2].
  - destruct (day_display n) as [| c r]; [discriminate |].
    exists c, r. split; [reflexivity |]. apply negb_true_iff, H2.
  - destruct (day_part (name_text (day_display n))) as [| [| k [| ? ?]]]; try discriminate.
    apply Z.eqb_eq in H3. subst. reflexivity.
  - destruct (name_text (day_display n)); [discriminate | congruence].
  - intros Hin. apply (memZ_In 44) in Hin. apply negb_true_iff in H5. congruence.
  - apply existsb_exists in H6. destruct H6 as [[k v] [Hin E]].
    apply andb_true_iff in E. destruct E as [E1 E2].
    apply pystr_eqb_eq in E1. apply Z.eqb_eq in E2. simpl in E1, E2. subst. exact Hin.
Qed.

Lemma filter_all_true {A} (f : A -> bool) (l : list A) :
  Forall (fun x => f x = true) l -> filter f l = l.
Proof. induction 1 as [| x l Hx _ IH]; [reflexivity |]. simpl. rewrite Hx, IH. reflexivity. Qed.

Lemma extend_all_day_names (m : list Z) :
  Forall (fun n => 0 <= n <= 6) m ->
  extend_all day_part (map name_text (map day_display m)) = inr m.
Proof.
  induction 1 as [| n m Hn Hm IH]; [reflexivity |].
  cbn [extend_all map]. destruct (display_ok_day n Hn) as [_ [_ [E _]]].
  rewrite E. cbn [bind]. rewrite IH. reflexivity.
Qed.

Lemma human_of_display (m : list Z) :
  m <> [] -> NoDup m -> Forall (fun n => 0 <= n <= 6) m ->
  human_weekdays_to_kube (Some (join 44 (map day_display m))) = inr (serialize_weekdays m).
Proof.
  intros Hne Hnd Hr.
  assert (Hchars : Forall (fun c => is_space c = false /\ c <> 44 \/ c = 44)
                          (join 44 (map day_display m))).
  { apply Forall_join; [right; reflexivity |]. apply Forall_map.
    eapply Forall_impl; [| exact Hr]. intros n Hn.
    eapply Forall_impl; [| exact (proj1 (display_ok_day n Hn))]. intros c Hc. left. exact Hc. }
  assert (Hstrip : strip (join 44 (map day_display m)) = join 44 (map day_display m)).
  { apply strip_nospace. eapply Forall_impl; [| exact Hchars].
    intros c [[H _] | ->]; [exact H | reflexivity]. }
  destruct m as [| n0 m']; [congruence |].
  assert (Hn0 : 0 <= n0 <= 6) by (inversion Hr; assumption).
  destruct (display_ok_day n0 Hn0) as [_ [[c [r [Ed Hc]]] _]].
  assert (Hc_sp : is_space c = false).
  { destruct (display_ok_day n0 Hn0) as [Hf _]. rewrite Ed in Hf.
    inversion Hf as [| ? ? [Hsp _] _]. exact Hsp. }
  assert (Hshape : exists tail, join 44 (map day_display (n0 :: m')) = c :: tail).
  { destruct m' as [| n1 m'']; cbn [map join]; rewrite Ed; [eexists; reflexivity |].
    eexists. reflexivity. }
  destruct Hshape as [tail Ht].
  assert (Hnum : numeric_form (join 44 (map day_display (n0 :: m'))) = false).
  { rewrite Ht. unfold numeric_form. cbn [numeric_scan]. rewrite Hc_sp, Hc.
    destruct ((c =? 45) || (c =? 44)); reflexivity. }
  rewrite human_name_path; [| exact Hstrip | rewrite Ht; discriminate | exact Hnum].
  rewrite name_text_join, split_on_join.
  - rewrite filter_all_true.
    + rewrite extend_all_day_names by exact Hr. cbn [bind].
      rewrite dedup_NoDup by exact Hnd. reflexivity.
    + rewrite Forall_map. rewrite Forall_map. eapply Forall_impl; [| exact Hr].
      intros n Hn. destruct (display_ok_day n Hn) as [_ [_ [_ [H _]]]].
      destruct (name_text (day_display n)); [congruence | reflexivity].
  - discriminate.
  - rewrite Forall_map. rewrite Forall_map. eapply Forall_impl; [| exact Hr].
    intros n Hn. exact (proj1 (proj2 (proj2 (proj2 (proj2 (display_ok_day n Hn)))))).
Qed.

(** X3. Display round trip: for a non-empty list of days in 0..6 written as
    the code writes weekdays ("n,n,..."), [kube_weekdays_to_human] lists
    each distinct day once, in first-occurrence order, by its Spanish name
    from [DAYS_ES]; feeding that display back to [human_weekdays_to_kube]
    gives the serialized distinct days again. *)
Theorem weekday_display_round_trip (l : list Z) :
  l <> [] -> Forall (fun n => 0 <= n <= 6) l ->
  kube_weekdays_to_human (Some (serialize_weekdays l))
    = inr (join 44 (map day_display (dedup l))) /\
  Forall (fun n => In (day_display n, n) DAYS_ES) (dedup l) /\
  human_weekdays_to_kube (Some (join 44 (map day_display (dedup l))))
    = inr (serialize_weekdays (dedup l)).
Proof.
  intros Hne Hr.
  assert (Hr' : Forall (fun n => 0 <= n <= 6) (dedup l)).
  { rewrite Forall_forall in Hr |- *. intros n Hn. apply Hr, In_dedup, Hn. }
  split; [| split].
  - apply kube_weekdays_serialize; [exact Hne |].
    eapply Forall_impl; [| exact Hr]. intros n Hn. cbv beta in *. lia.
  - eapply Forall_impl; [| exact Hr']. intros n Hn.
    exact (proj2 (proj2 (proj2 (proj2 (proj2 (display_ok_day n Hn)))))).
  - apply human_of_display; [apply dedup_nonempty, Hne | apply NoDup_dedup | exact Hr'].
Qed.

Lemma weekday_display_round_trip_witness :
  kube_weekdays_to_human (Some (str_of "5,6,0,5"))
    = inr (join 44 (map day_display [5; 6; 0])) /\
  human_weekdays_to_kube (Some (join 44 (map day_display [5; 6; 0]))) = inr (str_of "5,6,0").
Proof.
  assert (Hne : [5; 6; 0; 5] <> []) by discriminate.
  assert (Hr : Forall (fun n => 0 <= n <= 6) [5; 6; 0; 5]) by (repeat constructor; lia).
  destruct (weekday_display_round_trip [5; 6; 0; 5] Hne Hr) as [H1 [_ H3]].
  split; [exact H1 | exact H3].
Defined.

Lemma py_int_error (s : pystr) (e : exn) : py_int s = inl e -> e = ValueError.
Proof.
  unfold py_int. destruct (match strip s with
                           | 43 :: r => (1, r) | 45 :: r => (-1, r) | _ => (1, strip s) end)
    as [sign body].
  destruct body as [| c r]; [cbv [raise]; congruence |].
  destruct (digit_value c); [| cbv [raise]; congruence].
  destruct (digits_acc z r); cbv [ret raise]; congruence.
Qed.

Lemma kube_chunk_error (c : pystr) (e : exn) : kube_chunk c = inl e -> e = ValueError.
Proof.
  unfold kube_chunk. destruct (split1 45 c) as [[a b] |].
  - destruct (py_int a) as [ea | a'] eqn:A; cbn [bind].
    + intros H. injection H as <-. exact (py_int_error _ _ A).
    + destruct (py_int b) as [eb | b'] eqn:B; cbn [bind ret]; [| discriminate].
      intros H. injection H as <-. exact (py_int_error _ _ B).
  - destruct (py_int c) as [ec | n] eqn:N; cbn [bind ret]; [| discriminate].
    intros H. injection H as <-. exact (py_int_error _ _ N).
Qed.

(** X4. [kube_weekdays_to_human] raises ValueError on any non-blank
    specification with an empty comma-separated chunk (a trailing comma,
    ",,", ...), since it calls [int("")] where [_expand_weekdays_str]
    skips the chunk. *)
Theorem kube_weekdays_empty_chunk (s : pystr) :
  strip s <> [] -> In [] (map strip (split_on 44 (strip s))) ->
  kube_weekdays_to_human (Some s) = inl ValueError.
Proof.
  intros Hne Hin.
  assert (Hfail : exists e, extend_all (fun chunk => kube_chunk (strip chunk))
                                       (split_on 44 (strip s)) = inl e).
  { apply extend_all_fails. apply in_map_iff in Hin. destruct Hin as [chunk [Hc Hin]].
    exists chunk. split; [exact Hin |]. rewrite Hc. exists ValueError. reflexivity. }
  destruct Hfail as [e He].
  assert (Hv : e = ValueError).
  { exact (extend_all_error _ _ _ (fun p e' H => kube_chunk_error (strip p) e' H) He). }
  subst e. unfold kube_weekdays_to_human.
  destruct (strip s) as [| c r]; [congruence |]. rewrite He. reflexivity.
Qed.

Lemma kube_weekdays_empty_chunk_witness :
  kube_weekdays_to_human (Some (str_of "1,")) = inl ValueError /\
  _expand_weekdays_str (str_of "1,") = inr [1].
Proof.
  split; [| reflexivity].
  apply kube_weekdays_empty_chunk; [discriminate | vm_compute; right; left; reflexivity].
Defined.

(** ** Namespaces of a tenant *)

Lemma normalize_selection (arg : ns_arg) :
  snd (normalize_namespaces arg) <> [] /\
  (forall g, In g (snd (normalize_namespaces arg)) -> In g VALID_SUFFIXES).
Proof.
  assert (Hgen : forall parts,
    let r := collect_suffixes parts [] [] in
    (match snd r with [] => VALID_SUFFIXES | _ => snd r end) <> [] /\
    (forall g, In g (match snd r with [] => VALID_SUFFIXES | _ => snd r end) ->
               In g VALID_SUFFIXES)).
  { intros parts r. destruct (collect_suffixes_spec parts [] []) as [_ H2]. fold r in H2.
    destruct (snd r) as [| x xs] eqn:E; [split; [discriminate | tauto] |].
    split; [discriminate |]. intros g Hg. apply H2 in Hg.
    destruct Hg as [[] | Hg]. apply filter_In in Hg. apply mem_str_In, Hg. }
  destruct arg as [| [| c s] | [| x xs]];
    try (split; [discriminate | tauto]); unfold normalize_namespaces;
    [ pose proof (Hgen (resplit (strip (c :: s)))) as H
    | pose proof (Hgen (flat_map (fun x0 => resplit (strip x0)) (x :: xs))) as H ];
    cbv zeta in H; destruct (collect_suffixes _ [] []) as [warnings out]; exact H.
Qed.

Lemma allow_ns_selected (arg : ns_arg) (g : pystr) :
  allow_ns (snd (normalize_namespaces arg)) g = mem_str g (snd (normalize_namespaces arg)).
Proof.
  unfold allow_ns. destruct (normalize_selection arg) as [Hne _].
  destruct (snd (normalize_namespaces arg)); [congruence | reflexivity].
Qed.

Lemma VALID_SUFFIXES_NoDup : NoDup VALID_SUFFIXES.
Proof.
  unfold VALID_SUFFIXES. repeat constructor; simpl;
    intros H; repeat destruct H as [H | H]; try discriminate; exact H.
Qed.

Lemma NoDup_map_injective {A B} (f : A -> B) (l : list A) :
  (forall a b, f a = f b -> a = b) -> NoDup l -> NoDup (map f l).
Proof.
  intros Hinj. induction 1 as [| x l Hx _ IH]; simpl; constructor; [| exact IH].
  rewrite in_map_iff. intros [y [E Hy]]. apply Hinj in E. subst. contradiction.
Qed.

(** X5. [namespaces_for_tenant] never returns an empty list, lists no
    namespace twice, and lists exactly the namespaces [tenant-g] of the
    groups [g] that the assembler lets through ([allow_ns] on the
    normalized selection), for every namespace argument. *)
Theorem namespaces_for_tenant_selection (tenant : pystr) (arg : ns_arg) :
  namespaces_for_tenant tenant arg <> [] /\
  NoDup (namespaces_for_tenant tenant arg) /\
  (forall ns, In ns (namespaces_for_tenant tenant arg) <->
     exists g, In g VALID_SUFFIXES /\ allow_ns (snd (normalize_namespaces arg)) g = true /\
               ns = tenant ++ 45 :: g).
Proof.
  destruct (normalize_selection arg) as [Hne Hval].
  unfold namespaces_for_tenant. cbv zeta.
  set (sel := snd (normalize_namespaces arg)) in *.
  split; [| split].
  - destruct sel as [| g gs] eqn:E; [congruence |].
    assert (Hg : In g (filter (fun s => mem_str s (g :: gs)) VALID_SUFFIXES)).
    { apply filter_In. split; [apply Hval; left; reflexivity |].
      apply mem_str_In. left. reflexivity. }
    destruct (filter _ VALID_SUFFIXES); [destruct Hg | discriminate].
  - apply NoDup_map_injective.
    + intros a b E. apply app_inv_head in E. injection E as E. exact E.
    + apply NoDup_filter, VALID_SUFFIXES_NoDup.
  - assert (Hal : forall g, allow_ns sel g = mem_str g sel)
      by (intros g; unfold sel; apply allow_ns_selected).
    intros ns. rewrite in_map_iff. split.
    + intros [g [<- Hg]]. apply filter_In in Hg. exists g. rewrite Hal. tauto.
    + intros [g [Hg [Ha ->]]]. exists g. split; [reflexivity |]. apply filter_In.
      rewrite Hal in Ha. tauto.
Qed.

(** ** Invariants of the generated objects *)

Lemma bind_inr {A B} (m : res A) (k : A -> res B) (b : B) :
  bind m k = inr b -> exists a, m = inr a /\ k a = inr b.
Proof. destruct m as [e | a]; [discriminate |]. intros H. exists a. split; [reflexivity | exact H]. Qed.

(** A time the code prints: a minute of the day, zero-padded as HH:MM,
    which [parse_hhmm] reads back. *)
Definition canonical_hhmm (t : pystr) : Prop :=
  exists m, 0 <= m < minutes_per_day /\ t = strftime_hhmm m /\
            parse_hhmm t = inr (m / 60, m mod 60).

Lemma canonical_strftime (m : Z) : 0 <= m < minutes_per_day -> canonical_hhmm (strftime_hhmm m).
Proof. intros Hm. exists m. split; [exact Hm | split; [reflexivity | apply parse_strftime, Hm]]. Qed.

Lemma canonical_mod (x : Z) : canonical_hhmm (strftime_hhmm (x mod minutes_per_day)).
Proof. apply canonical_strftime, Z.mod_pos_bound. unfold minutes_per_day. lia. Qed.

Lemma to_utc_dayshift_canonical (tz : tzinfo) (today : Z) (s u : pystr) (k : Z) :
  to_utc_hhmm_and_dayshift tz today s = inr (u, k) -> canonical_hhmm u.
Proof.
  unfold to_utc_hhmm_and_dayshift. intros H. apply bind_inr in H as [[hh mm] [_ H]].
  injection H as <- _. apply canonical_mod.
Qed.

Lemma add_minutes_canonical (today : Z) (s u : pystr) (k : Z) :
  add_minutes_hhmm today s k = inr u -> canonical_hhmm u.
Proof.
  unfold add_minutes_hhmm. intros H. apply bind_inr in H as [[hh mm] [_ H]].
  injection H as <-. apply canonical_mod.
Qed.

(** A weekday field the code writes: a list of distinct days 0..6 joined
    by commas, which [_expand_weekdays_str] reads back (the empty list
    being read as every day). *)
Definition canonical_weekdays (w : pystr) : Prop :=
  exists d, w = serialize_weekdays d /\ NoDup d /\ Forall (fun n => 0 <= n <= 6) d /\
            _expand_weekdays_str w = inr (match d with [] => range 0 7 | _ => d end).

Lemma shift_canonical (raw w : pystr) (k : Z) :
  _shift_weekdays_str raw k = inr w -> canonical_weekdays w.
Proof.
  rewrite shift_unfold. intros H. apply bind_inr in H as [lst [_ H]]. injection H as <-.
  set (d := dedup (map (fun n => (n + k mod 7) mod 7) lst)).
  assert (Hr : Forall (fun n => 0 <= n <= 6) d).
  { rewrite Forall_forall. intros n Hn. apply In_dedup_map in Hn.
    destruct Hn as [x [_ ->]]. pose proof (Z.mod_pos_bound (x + k mod 7) 7 ltac:(lia)). lia. }
  exists d. split; [reflexivity |]. split; [apply NoDup_dedup |]. split; [exact Hr |].
  rewrite expand_serialize; [reflexivity | apply NoDup_dedup |].
  eapply Forall_impl; [| exact Hr]. cbv beta. intros n Hn. lia.
Qed.

Lemma prepare_plan (today : Z) (off_local on_local : pystr)
  (weekdays sleepdays wakedays : option pystr) (arg : ns_arg) (p : plan) :
  prepare today off_local on_local weekdays sleepdays wakedays arg = inr p ->
  pl_selected p = snd (normalize_namespaces arg) /\
  Forall canonical_hhmm [pl_off_utc p; pl_on_pg_hdfs p; pl_on_pgbouncer p; pl_on_deployments p] /\
  Forall canonical_weekdays [pl_wd_sleep_utc p; pl_wd_wake_utc p].
Proof.
  unfold prepare. intros H.
  apply bind_inr in H as [[wsl wwl] [_ H]].
  apply bind_inr in H as [[off_utc off_shift] [Hoff H]].
  apply bind_inr in H as [[on_utc on_shift] [Hon H]].
  apply bind_inr in H as [ws [Hws H]].
  apply bind_inr in H as [ww [Hww H]].
  apply bind_inr in H as [[[pg pgb] dep] [Hst H]].
  injection H as <-. unfold stagger in Hst.
  apply bind_inr in Hst as [pgb' [Hpgb Hst]].
  apply bind_inr in Hst as [dep' [Hdep Hst]].
  injection Hst as <- <- <-. cbn.
  split; [reflexivity |]. split.
  - repeat constructor;
      first [ eapply to_utc_dayshift_canonical; eassumption
            | eapply add_minutes_canonical; eassumption ].
  - repeat constructor; eapply shift_canonical; eassumption.
Qed.

(** The [excludeRef] the assembler gives the objects of group [g]. *)
Definition group_excludeRef (tenant g : pystr) : option (list label_matcher) :=
  if pystr_eqb g (str_of "apps")
  then Some [LabelMatcher (str_of "cct.stratio.com/application_id")
                          (str_of "virtualizer." ++ tenant ++ 45 :: g)]
  else if pystr_eqb g (str_of "datastores") || pystr_eqb g (str_of "airflowsso")
  then Some EXCLUDE_PG_HDFS_LABELS
  else None.

(** The fields every object of group [g] has, for a plan [p]. *)
Definition object_fields (tenant : pystr) (p : plan) (g : pystr) (o : sleepinfo) : Prop :=
  si_apiVersion o = str_of "kube-green.com/v1alpha1" /\ si_kind o = KIND /\
  md_namespace (si_metadata o) = tenant ++ 45 :: g /\
  sp_timeZone (si_spec o) = UTC /\
  (sp_weekdays (si_spec o) = pl_wd_sleep_utc p \/ sp_weekdays (si_spec o) = pl_wd_wake_utc p) /\
  In (sp_sleepAt (si_spec o))
     [pl_off_utc p; pl_on_pg_hdfs p; pl_on_pgbouncer p; pl_on_deployments p] /\
  (sp_wakeUpAt (si_spec o) = None \/ sp_wakeUpAt (si_spec o) = Some (pl_on_deployments p)) /\
  sp_excludeRef (si_spec o) = group_excludeRef tenant g /\
  sp_patches (si_spec o) = None.

Ltac solve_fields :=
  repeat match goal with
  | |- Forall _ [] => constructor
  | |- Forall _ (_ :: _) => constructor
  | |- _ /\ _ => split
  | |- _ => first [ reflexivity | (left; reflexivity) | (right; reflexivity)
                  | (right; left; reflexivity) | (right; right; left; reflexivity)
                  | (right; right; right; left; reflexivity) ]
  end.

Lemma make_ns_fields (tenant g : pystr) (p : plan) (ss ssp : bool) (ex : list label_matcher)
  (os : list sleepinfo) :
  group_excludeRef tenant g
    = match ex ++ (if pystr_eqb g (str_of "apps")
                   then [LabelMatcher (str_of "cct.stratio.com/application_id")
                                      (str_of "virtualizer." ++ tenant ++ 45 :: g)]
                   else []) with [] => None | l => Some l end ->
  make_ns_split_days tenant g g (pl_off_utc p) (pl_on_deployments p)
    (pl_wd_sleep_utc p) (pl_wd_wake_utc p) ss ssp [] [] ex = inr os ->
  Forall (object_fields tenant p g) os.
Proof.
  intros Hex H. unfold make_ns_split_days in H. cbv zeta in H.
  apply bind_inr in H as [ls [_ H]]. apply bind_inr in H as [lw [_ H]].
  unfold object_fields. rewrite Hex.
  destruct (set_eqb ls lw); injection H as <-;
    destruct (ex ++ _); solve_fields.
Qed.

Lemma make_datastores_fields (tenant : pystr) (p : plan) (os : list sleepinfo) :
  make_datastores_native_deploys_split_days tenant (pl_off_utc p) (pl_on_deployments p)
    (pl_on_pg_hdfs p) (pl_on_pgbouncer p) (pl_wd_sleep_utc p) (pl_wd_wake_utc p) = inr os ->
  Forall (object_fields tenant p (str_of "datastores")) os.
Proof.
  unfold make_datastores_native_deploys_split_days. intros H.
  apply bind_inr in H as [ls [_ H]]. apply bind_inr in H as [lw [_ H]].
  destruct (set_eqb ls lw); injection H as <-; unfold object_fields, datastores_objs;
    solve_fields.
Qed.

Lemma group_Forall (sel : list pystr) (g : pystr) (m : res (list sleepinfo))
  (part : list sleepinfo) (Q : pystr -> sleepinfo -> Prop) :
  In g VALID_SUFFIXES ->
  (forall os, m = inr os -> Forall (Q g) os) ->
  (if allow_ns sel g then m else ret []) = inr part ->
  Forall (fun o => exists g, In g VALID_SUFFIXES /\ allow_ns sel g = true /\ Q g o) part.
Proof.
  intros Hg Hm. destruct (allow_ns sel g) eqn:A.
  - intros H. apply Hm in H. eapply Forall_impl; [| exact H].
    intros o Ho. exists g. auto.
  - intros H. injection H as <-. constructor.
Qed.

(** Every object the assembler emits comes from a selected group and has
    that group's fields. *)
Lemma assemble_fields (tenant : pystr) (p : plan) (objs : list sleepinfo) :
  assemble tenant p = inr objs ->
  Forall (fun o => exists g, In g VALID_SUFFIXES /\ allow_ns (pl_selected p) g = true /\
                             object_fields tenant p g o) objs.
Proof.
  unfold assemble. cbv zeta. intros H.
  apply bind_inr in H as [ds [Hds H]].
  apply bind_inr in H as [apps [Happs H]].
  apply bind_inr in H as [rocket [Hrocket H]].
  apply bind_inr in H as [intel [Hintel H]].
  apply bind_inr in H as [airflow [Hairflow H]].
  injection H as <-.
  repeat (apply Forall_app; split);
    match goal with
    | H : _ = inr ?part |- Forall _ ?part =>
        refine (group_Forall _ _ _ _ (object_fields tenant p) _ _ H);
          [apply mem_str_In; reflexivity |]
    end;
    intros os Hos;
    first [ exact (make_datastores_fields tenant p os Hos)
          | (refine (make_ns_fields _ _ _ _ _ _ _ _ Hos); reflexivity) ].
Qed.

Lemma make_all_fields (today : Z) (tenant off_local on_local : pystr)
  (weekdays sleepdays wakedays : option pystr) (arg : ns_arg) (objs : list sleepinfo) :
  make_all_objects_for_tenant today tenant off_local on_local weekdays sleepdays wakedays arg
    = inr objs ->
  exists p, pl_selected p = snd (normalize_namespaces arg) /\
    Forall canonical_hhmm [pl_off_utc p; pl_on_pg_hdfs p; pl_on_pgbouncer p; pl_on_deployments p] /\
    Forall canonical_weekdays [pl_wd_sleep_utc p; pl_wd_wake_utc p] /\
    Forall (fun o => exists g, In g VALID_SUFFIXES /\ allow_ns (pl_selected p) g = true /\
                               object_fields tenant p g o) objs.
Proof.
  unfold make_all_objects_for_tenant. intros H. apply bind_inr in H as [p [Hp H]].
  exists p. destruct (prepare_plan _ _ _ _ _ _ _ _ Hp) as [Hs [Ht Hw]].
  split; [exact Hs |]. split; [exact Ht |]. split; [exact Hw |].
  apply assemble_fields, H.
Qed.

Lemma In_namespaces_for_tenant (tenant : pystr) (arg : ns_arg) (g : pystr) :
  In g VALID_SUFFIXES -> allow_ns (snd (normalize_namespaces arg)) g = true ->
  In (tenant ++ 45 :: g) (namespaces_for_tenant tenant arg).
Proof.
  intros Hg Ha. unfold namespaces_for_tenant.
  apply (in_map (fun s => tenant ++ 45 :: s)), filter_In.
  rewrite allow_ns_selected in Ha. split; assumption.
Qed.

(** X6. Every object [make_all_objects_for_tenant] returns is a
    kube-green.com/v1alpha1 SleepInfo in UTC without patches, and its
    namespace is one of those [namespaces_for_tenant] lists for the same
    selection. *)
Theorem make_all_objects_in_tenant_namespaces (today : Z) (tenant off_local on_local : pystr)
  (weekdays sleepdays wakedays : option pystr) (arg : ns_arg) (objs : list sleepinfo) :
  make_all_objects_for_tenant today tenant off_local on_local weekdays sleepdays wakedays arg
    = inr objs ->
  Forall (fun o => si_apiVersion o = str_of "kube-green.com/v1alpha1" /\
                   si_kind o = str_of "SleepInfo" /\
                   In (md_namespace (si_metadata o)) (namespaces_for_tenant tenant arg) /\
                   sp_timeZone (si_spec o) = str_of "UTC" /\
                   sp_patches (si_spec o) = None) objs.
Proof.
  intros H. destruct (make_all_fields _ _ _ _ _ _ _ _ _ H) as [p [Hs [_ [_ Hobjs]]]].
  eapply Forall_impl; [| exact Hobjs].
  intros o [g [Hg [Ha [Hv [Hk [Hn [Htz [_ [_ [_ [_ Hpt]]]]]]]]]]].
  rewrite Hs in Ha. rewrite Hn.
  split; [exact Hv |]. split; [exact Hk |]. split; [apply In_namespaces_for_tenant; assumption |].
  split; assumption.
Qed.

Lemma make_all_objects_in_tenant_namespaces_witness :
  exists objs,
    make_all_objects_for_tenant 739000 (str_of "bdl") (str_of "22:00") (str_of "06:00")
      (Some (str_of "lunes-viernes")) None None (NsStr (str_of "apps datastores")) = inr objs /\
    List.length objs = 6%nat /\
    Forall (fun o => si_apiVersion o = str_of "kube-green.com/v1alpha1" /\
                     si_kind o = str_of "SleepInfo" /\
                     In (md_namespace (si_metadata o))
                        (namespaces_for_tenant (str_of "bdl") (NsStr (str_of "apps datastores"))) /\
                     sp_timeZone (si_spec o) = str_of "UTC" /\
                     sp_patches (si_spec o) = None) objs.
Proof.
  pose (objs := match make_all_objects_for_tenant 739000 (str_of "bdl") (str_of "22:00")
                        (str_of "06:00") (Some (str_of "lunes-viernes")) None None
                        (NsStr (str_of "apps datastores")) with
                | inr l => l | inl _ => [] end).
  assert (E : make_all_objects_for_tenant 739000 (str_of "bdl") (str_of "22:00") (str_of "06:00")
                (Some (str_of "lunes-viernes")) None None (NsStr (str_of "apps datastores"))
              = inr objs) by (vm_compute; reflexivity).
  exists objs. split; [exact E |]. split; [vm_compute; reflexivity |].
  exact (make_all_objects_in_tenant_namespaces _ _ _ _ _ _ _ _ objs E).
Defined.

(** X7. Each object [make_all_objects_for_tenant] returns lies in the
    namespace [tenant-g] of a valid group [g], and its [excludeRef] depends
    only on that group: the six PostgreSQL/HDFS operator label matchers for
    datastores and airflowsso, the single matcher
    [cct.stratio.com/application_id = virtualizer.tenant-apps] for apps,
    and none for rocket and intelligence. *)
Theorem make_all_objects_excludeRef (today : Z) (tenant off_local on_local : pystr)
  (weekdays sleepdays wakedays : option pystr) (arg : ns_arg) (objs : list sleepinfo) :
  make_all_objects_for_tenant today tenant off_local on_local weekdays sleepdays wakedays arg
    = inr objs ->
  Forall (fun o => exists g, In g VALID_SUFFIXES /\
                             md_namespace (si_metadata o) = tenant ++ 45 :: g /\
                             sp_excludeRef (si_spec o) = group_excludeRef tenant g) objs.
Proof.
  intros H. destruct (make_all_fields _ _ _ _ _ _ _ _ _ H) as [p [_ [_ [_ Hobjs]]]].
  eapply Forall_impl; [| exact Hobjs].
  intros o [g [Hg [_ [_ [_ [Hn [_ [_ [_ [_ [Hex _]]]]]]]]]]].
  exists g. split; [exact Hg |]. split; assumption.
Qed.

Lemma make_all_objects_excludeRef_witness :
  exists objs,
    make_all_objects_for_tenant 739000 (str_of "bdl") (str_of "22:00") (str_of "06:00")
      (Some (str_of "lunes-viernes")) None None (NsStr (str_of "apps datastores")) = inr objs /\
    List.length objs = 6%nat /\
    Forall (fun o => exists g, In g VALID_SUFFIXES /\
                               md_namespace (si_metadata o) = str_of "bdl" ++ 45 :: g /\
                               sp_excludeRef (si_spec o) = group_excludeRef (str_of "bdl") g) objs.
Proof.
  pose (objs := match make_all_objects_for_tenant 739000 (str_of "bdl") (str_of "22:00")
                        (str_of "06:00") (Some (str_of "lunes-viernes")) None None
                        (NsStr (str_of "apps datastores")) with
                | inr l => l | inl _ => [] end).
  assert (E : make_all_objects_for_tenant 739000 (str_of "bdl") (str_of "22:00") (str_of "06:00")
                (Some (str_of "lunes-viernes")) None None (NsStr (str_of "apps datastores"))
              = inr objs) by (vm_compute; reflexivity).
  exists objs. split; [exact E |]. split; [vm_compute; reflexivity |].
  exact (make_all_objects_excludeRef _ _ _ _ _ _ _ _ objs E).
Defined.

(** X8. Every [sleepAt] and every [wakeUpAt] present in the objects
    [make_all_objects_for_tenant] returns is a zero-padded HH:MM time of
    the day (minute [m] in 0..1439) that [parse_hhmm] reads back as
    [(m / 60, m mod 60)]. *)
Theorem make_all_objects_canonical_times (today : Z) (tenant off_local on_local : pystr)
  (weekdays sleepdays wakedays : option pystr) (arg : ns_arg) (objs : list sleepinfo) :
  make_all_objects_for_tenant today tenant off_local on_local weekdays sleepdays wakedays arg
    = inr objs ->
  Forall (fun o => canonical_hhmm (sp_sleepAt (si_spec o)) /\
                   forall w, sp_wakeUpAt (si_spec o) = Some w -> canonical_hhmm w) objs.
Proof.
  intros H. destruct (make_all_fields _ _ _ _ _ _ _ _ _ H) as [p [_ [Ht [_ Hobjs]]]].
  rewrite Forall_forall in Ht.
  eapply Forall_impl; [| exact Hobjs].
  intros o [g [_ [_ [_ [_ [_ [_ [_ [Hsl [Hwk _]]]]]]]]]].
  split.
  - apply Ht, Hsl.
  - intros w Hw. destruct Hwk as [E | E]; rewrite Hw in E; [discriminate |].
    injection E as ->. apply Ht. simpl. tauto.
Qed.

Lemma make_all_objects_canonical_times_witness :
  exists objs,
    make_all_objects_for_tenant 739000 (str_of "bdl") (str_of "22:00") (str_of "06:00")
      (Some (str_of "lunes-viernes")) None None (NsStr (str_of "apps datastores")) = inr objs /\
    List.length objs = 6%nat /\
    Forall (fun o => canonical_hhmm (sp_sleepAt (si_spec o)) /\
                     forall w, sp_wakeUpAt (si_spec o) = Some w -> canonical_hhmm w) objs.
Proof.
  pose (objs := match make_all_objects_for_tenant 739000 (str_of "bdl") (str_of "22:00")
                        (str_of "06:00") (Some (str_of "lunes-viernes")) None None
                        (NsStr (str_of "apps datastores")) with
                | inr l => l | inl _ => [] end).
  assert (E : make_all_objects_for_tenant 739000 (str_of "bdl") (str_of "22:00") (str_of "06:00")
                (Some (str_of "lunes-viernes")) None None (NsStr (str_of "apps datastores"))
              = inr objs) by (vm_compute; reflexivity).
  exists objs. split; [exact E |]. split; [vm_compute; reflexivity |].
  exact (make_all_objects_canonical_times _ _ _ _ _ _ _ _ objs E).
Defined.

(** X9. The [weekdays] field of every object [make_all_objects_for_tenant]
    returns is a comma-joined list of distinct days in 0..6 (single
    digits), and [_expand_weekdays_str] reads it back as that list (the
    empty list as every day). *)
Theorem make_all_objects_canonical_weekdays (today : Z) (tenant off_local on_local : pystr)
  (weekdays sleepdays wakedays : option pystr) (arg : ns_arg) (objs : list sleepinfo) :
  make_all_objects_for_tenant today tenant off_local on_local weekdays sleepdays wakedays arg
    = inr objs ->
  Forall (fun o => exists d, sp_weekdays (si_spec o) = serialize_weekdays d /\ NoDup d /\
                             Forall (fun n => 0 <= n <= 6) d /\
                             _expand_weekdays_str (sp_weekdays (si_spec o))
                               = inr (match d with [] => range 0 7 | _ => d end)) objs.
Proof.
  intros H. destruct (make_all_fields _ _ _ _ _ _ _ _ _ H) as [p [_ [_ [Hw Hobjs]]]].
  rewrite Forall_forall in Hw.
  eapply Forall_impl; [| exact Hobjs].
  intros o [g [_ [_ [_ [_ [_ [_ [Hwd _]]]]]]]].
  apply Hw. destruct Hwd as [-> | ->]; simpl; tauto.
Qed.

Lemma make_all_objects_canonical_weekdays_witness :
  exists objs,
    make_all_objects_for_tenant 739000 (str_of "bdl") (str_of "22:00") (str_of "06:00")
      (Some (str_of "lunes-viernes")) None None (NsStr (str_of "apps datastores")) = inr objs /\
    List.length objs = 6%nat /\
    Forall (fun o => exists d, sp_weekdays (si_spec o) = serialize_weekdays d /\ NoDup d /\
                               Forall (fun n => 0 <= n <= 6) d /\
                               _expand_weekdays_str (sp_weekdays (si_spec o))
                                 = inr (match d with [] => range 0 7 | _ => d end)) objs.
Proof.
  pose (objs := match make_all_objects_for_tenant 739000 (str_of "bdl") (str_of "22:00")
                        (str_of "06:00") (Some (str_of "lunes-viernes")) None None
                        (NsStr (str_of "apps datastores")) with
                | inr l => l | inl _ => [] end).
  assert (E : make_all_objects_for_tenant 739000 (str_of "bdl") (str_of "22:00") (str_of "06:00")
                (Some (str_of "lunes-viernes")) None None (NsStr (str_of "apps datastores"))
              = inr objs) by (vm_compute; reflexivity).
  exists objs. split; [exact E |]. split; [vm_compute; reflexivity |].
  exact (make_all_objects_canonical_weekdays _ _ _ _ _ _ _ _ objs E).
Defined.

(** ** Reconciliation and orphan cleanup *)





Lemma starts_with_app (p s : pystr) : starts_with p (p ++ s) = true.
Proof. induction p as [| c p IH]; [reflexivity |]. simpl. rewrite Z.eqb_refl. exact IH. Qed.






(** X12. When the selection string is non-empty but none of its tokens
    (split on commas and whitespace) is exactly, case-sensitively, one of
    the five suffixes, [reconcile_sleepinfos] and [cleanup_orphan_secrets]
    return at once without deleting anything, whatever the cluster holds. *)
Theorem no_exact_suffix_no_deletion (cl : cluster) (tenant : pystr) (objs : list sleepinfo)
  (s : pystr) :
  s <> [] ->
  (forall t, In t (resplit (strip s)) -> ~ In t all_suffixes) ->
  reconcile_sleepinfos cl tenant objs (Some s) = [] /\
  cleanup_orphan_secrets cl tenant (Some s) = [].
Proof.
  intros Hne Hnone.
  assert (Ht : target_suffixes (Some s) = None).
  { destruct s as [| c s']; [congruence |]. unfold target_suffixes.
    destruct (filter _ _) as [| t ts] eqn:E; [reflexivity |].
    assert (Hin : In t (filter (fun t => nonempty t && mem_str t all_suffixes)
                               (resplit (strip (c :: s'))))) by (rewrite E; left; reflexivity).
    apply filter_In in Hin. destruct Hin as [Hr Hm].
    apply andb_true_iff in Hm. destruct Hm as [_ Hm]. apply mem_str_In in Hm.
    exfalso. exact (Hnone t Hr Hm). }
  unfold reconcile_sleepinfos, cleanup_orphan_secrets. rewrite Ht. split; reflexivity.
Qed.

Lemma no_exact_suffix_no_deletion_witness :
  let cl := Cluster (fun _ => Some [str_of "old"]) (fun _ => Some [str_of "sleepinfo-old"]) in
  reconcile_sleepinfos cl (str_of "bdl") [] (Some (str_of "APPS")) = [] /\
  cleanup_orphan_secrets cl (str_of "bdl") (Some (str_of "APPS")) = [] /\
  reconcile_sleepinfos cl (str_of "bdl") [] (Some (str_of "apps")) <> [] /\
  snd (normalize_namespaces (NsStr (str_of "APPS"))) = [str_of "apps"].
Proof.
  intros cl.
  destruct (no_exact_suffix_no_deletion cl (str_of "bdl") [] (str_of "APPS"))
    as [H1 H2];
    [ discriminate
    | intros t Ht; vm_compute in Ht; destruct Ht as [<- | []]; vm_compute;
      intros H; repeat destruct H as [H | H]; try discriminate; exact H |].
  split; [exact H1 |]. split; [exact H2 |].
  split; [vm_compute; discriminate | vm_compute; reflexivity].
Defined.

(** ** Displaying the generated schedules *)


Lemma generated_object_canonical (today : Z) (tenant off_local on_local : pystr)
  (weekdays sleepdays wakedays : option pystr) (arg : ns_arg) (objs : list sleepinfo)
  (o : sleepinfo) :
  make_all_objects_for_tenant today tenant off_local on_local weekdays sleepdays wakedays arg
    = inr objs ->
  In o objs ->
  canonical_weekdays (sp_weekdays (si_spec o)) /\ canonical_hhmm (sp_sleepAt (si_spec o)) /\
  (forall w, sp_wakeUpAt (si_spec o) = Some w -> canonical_hhmm w).
Proof.
  intros H Ho. destruct (make_all_fields _ _ _ _ _ _ _ _ _ H) as [p [_ [Ht [Hw Hobjs]]]].
  rewrite Forall_forall in Ht, Hw, Hobjs.
  destruct (Hobjs o Ho) as [g [_ [_ [_ [_ [_ [_ [Hwd [Hsl [Hwk _]]]]]]]]]].
  split; [| split].
  - apply Hw. destruct Hwd as [-> | ->]; simpl; tauto.
  - apply Ht, Hsl.
  - intros w Hw'. destruct Hwk as [E | E]; rewrite Hw' in E; [discriminate |].
    injection E as ->. apply Ht. simpl. tauto.
Qed.









(** ** Distinct object names *)

Fixpoint count_char (c : Z) (l : pystr) : nat :=
  match l with
  | [] => 0%nat
  | x :: r => Nat.add (if x =? c then 1%nat else 0%nat) (count_char c r)
  end.

Lemma count_char_app (c : Z) (a b : pystr) :
  count_char c (a ++ b) = (count_char c a + count_char c b)%nat.
Proof. induction a as [| x a IH]; [reflexivity |]. simpl. rewrite IH. lia. Qed.

(** A name built around the tenant: [prefix ++ tenant ++ suffix]. *)
Definition tmpl (tenant : pystr) (t : pystr * pystr) : pystr := fst t ++ tenant ++ snd t.

(** What two such names share when they are equal, whatever the tenant:
    the total length and the number of 'o' of their fixed parts. *)
Definition tkey (t : pystr * pystr) : nat * nat :=
  (List.length (fst t) + List.length (snd t), count_char 111 (fst t) + count_char 111 (snd t))%nat.

Lemma tmpl_key (tenant : pystr) (t1 t2 : pystr * pystr) :
  tmpl tenant t1 = tmpl tenant t2 -> tkey t1 = tkey t2.
Proof.
  unfold tmpl, tkey. intros E.
  pose proof (f_equal (@List.length Z) E) as L. pose proof (f_equal (count_char 111) E) as C.
  rewrite !length_app in L. rewrite !count_char_app in C.
  f_equal; lia.
Qed.

Lemma NoDup_map_key {A B C} (f : A -> B) (g : A -> C) (l : list A) :
  (forall a b, f a = f b -> g a = g b) -> NoDup (map g l) -> NoDup (map f l).
Proof.
  intros Hfg. induction l as [| x l IH]; simpl; intros H; constructor.
  - inversion H as [| ? ? Hx _]. intros Hin. apply Hx.
    apply in_map_iff in Hin. destruct Hin as [y [E Hy]].
    apply in_map_iff. exists y. split; [apply Hfg, E | exact Hy].
  - inversion H. auto.
Qed.

Fixpoint nodupb {A} (eqb : A -> A -> bool) (l : list A) : bool :=
  match l with
  | [] => true
  | x :: r => negb (existsb (eqb x) r) && nodupb eqb r
  end.

Lemma nodupb_NoDup {A} (eqb : A -> A -> bool) (l : list A) :
  (forall a b, eqb a b = true <-> a = b) -> nodupb eqb l = true -> NoDup l.
Proof.
  intros Heq. induction l as [| x r IH]; simpl; intros H; constructor.
  - apply andb_true_iff in H. destruct H as [H _]. intros Hin.
    assert (existsb (eqb x) r = true) by (apply existsb_exists; exists x; split; [exact Hin | apply Heq; reflexivity]).
    rewrite H0 in H. discriminate.
  - apply andb_true_iff in H. apply IH, H.
Qed.

Definition key_eqb (a b : nat * nat) : bool := Nat.eqb (fst a) (fst b) && Nat.eqb (snd a) (snd b).

Lemma key_eqb_iff (a b : nat * nat) : key_eqb a b = true <-> a = b.
Proof.
  destruct a as [a1 a2], b as [b1 b2]. unfold key_eqb. simpl.
  rewrite andb_true_iff, !Nat.eqb_eq. split; [intros [-> ->]; reflexivity | intros E; injection E; auto].
Qed.

(** The name templates of one simple group: one combined object, or a
    sleep and a wake object. *)
Definition ns_templates (g : pystr) (equal : bool) : list (pystr * pystr) :=
  if equal then [([], 45 :: g)] else [(str_of "sleep-", 45 :: g); (str_of "wake-", 45 :: g)].

Definition ds_templates : list (pystr * pystr) :=
  [(str_of "sleep-ds-deploys-", []); (str_of "wake-ds-deploys-", str_of "-pg-hdfs");
   (str_of "wake-ds-deploys-", str_of "-pgbouncer"); (str_of "wake-ds-deploys-", [])].

Definition obj_name (o : sleepinfo) : pystr := md_name (si_metadata o).

Lemma make_ns_names (tenant g off_utc on_utc wd_sleep wd_wake : pystr) (ss ssp : bool)
  (ex : list label_matcher) (ls lw : list Z) (os : list sleepinfo) :
  _expand_weekdays_str wd_sleep = inr ls -> _expand_weekdays_str wd_wake = inr lw ->
  make_ns_split_days tenant g g off_utc on_utc wd_sleep wd_wake ss ssp [] [] ex = inr os ->
  map obj_name os = map (tmpl tenant) (ns_templates g (set_eqb ls lw)).
Proof.
  intros Hs Hw H. unfold make_ns_split_days in H. rewrite Hs, Hw in H. cbn [bind] in H.
  destruct (set_eqb ls lw); injection H as <-; reflexivity.
Qed.

Lemma make_datastores_names (tenant off_utc on_deployments on_pg_hdfs on_pgbouncer
  wd_sleep wd_wake : pystr) (os : list sleepinfo) :
  make_datastores_native_deploys_split_days tenant off_utc on_deployments on_pg_hdfs on_pgbouncer
    wd_sleep wd_wake = inr os ->
  map obj_name os = map (tmpl tenant) ds_templates.
Proof.
  unfold make_datastores_native_deploys_split_days. intros H.
  apply bind_inr in H as [ls [_ H]]. apply bind_inr in H as [lw [_ H]].
  assert (E : os = datastores_objs tenant off_utc on_deployments on_pg_hdfs on_pgbouncer
                     wd_sleep wd_wake) by (destruct (set_eqb ls lw); injection H as <-; reflexivity).
  subst os. unfold tmpl. simpl. rewrite !app_nil_r. reflexivity.
Qed.

Lemma part_names (tenant : pystr) (a : bool) (m : res (list sleepinfo)) (part : list sleepinfo)
  (L : list (pystr * pystr)) :
  (forall os, m = inr os -> map obj_name os = map (tmpl tenant) L) ->
  (if a then m else ret []) = inr part ->
  map obj_name part = map (tmpl tenant) (if a then L else []).
Proof. intros Hm H. destruct a; [apply Hm, H | injection H as <-; reflexivity]. Qed.

Lemma part_failed (a : bool) (m : res (list sleepinfo)) (part : list sleepinfo) :
  (forall os, m <> inr os) -> (if a then m else ret []) = inr part -> part = [].
Proof. intros Hm H. destruct a; [exfalso; exact (Hm _ H) | injection H as <-; reflexivity]. Qed.

(** The assembler never emits two objects with the same name. *)
Lemma assemble_names_NoDup (tenant : pystr) (p : plan) (objs : list sleepinfo) :
  assemble tenant p = inr objs -> NoDup (map obj_name objs).
Proof.
  unfold assemble. cbv zeta. intros H.
  apply bind_inr in H as [ds [Hds H]].
  apply bind_inr in H as [apps [Happs H]].
  apply bind_inr in H as [rocket [Hrocket H]].
  apply bind_inr in H as [intel [Hintel H]].
  apply bind_inr in H as [airflow [Hairflow H]].
  injection H as <-.
  destruct (_expand_weekdays_str (pl_wd_sleep_utc p)) as [e | ls] eqn:Hs;
  [| destruct (_expand_weekdays_str (pl_wd_wake_utc p)) as [e | lw] eqn:Hw].
  1, 2:
    repeat match goal with
    | Hp : (if _ then _ else ret []) = inr ?part |- context [?part] =>
        let E := fresh "E" in
        assert (E : part = []) by
          (refine (part_failed _ _ _ _ Hp); intros os Hos;
           unfold make_datastores_native_deploys_split_days, make_ns_split_days in Hos;
           rewrite ?Hs, ?Hw in Hos; discriminate);
        rewrite E; clear Hp
    end; constructor.
  set (b := set_eqb ls lw).
  erewrite !map_app,
    (part_names tenant _ _ ds ds_templates (fun os H => make_datastores_names _ _ _ _ _ _ _ os H) Hds),
    (part_names tenant _ _ apps (ns_templates (str_of "apps") b)
       (fun os H => make_ns_names _ _ _ _ _ _ _ _ _ ls lw os Hs Hw H) Happs),
    (part_names tenant _ _ rocket (ns_templates (str_of "rocket") b)
       (fun os H => make_ns_names _ _ _ _ _ _ _ _ _ ls lw os Hs Hw H) Hrocket),
    (part_names tenant _ _ intel (ns_templates (str_of "intelligence") b)
       (fun os H => make_ns_names _ _ _ _ _ _ _ _ _ ls lw os Hs Hw H) Hintel),
    (part_names tenant _ _ airflow (ns_templates (str_of "airflowsso") b)
       (fun os H => make_ns_names _ _ _ _ _ _ _ _ _ ls lw os Hs Hw H) Hairflow).
  rewrite <- !map_app.
  apply (NoDup_map_key (tmpl tenant) tkey); [apply tmpl_key |].
  apply (nodupb_NoDup key_eqb); [apply key_eqb_iff |].
  clearbody b.
  destruct b, (allow_ns (pl_selected p) (str_of "datastores")),
    (allow_ns (pl_selected p) (str_of "apps")), (allow_ns (pl_selected p) (str_of "rocket")),
    (allow_ns (pl_selected p) (str_of "intelligence")),
    (allow_ns (pl_selected p) (str_of "airflowsso"));
    vm_compute; reflexivity.
Qed.

(** X14. The objects [make_all_objects_for_tenant] returns have pairwise
    distinct names, for every tenant, times, weekdays and selection (so
    none of them overwrites another when the YAML is applied). *)
Theorem make_all_objects_distinct_names (today : Z) (tenant off_local on_local : pystr)
  (weekdays sleepdays wakedays : option pystr) (arg : ns_arg) (objs : list sleepinfo) :
  make_all_objects_for_tenant today tenant off_local on_local weekdays sleepdays wakedays arg
    = inr objs ->
  NoDup (map (fun o => md_name (si_metadata o)) objs).
Proof.
  unfold make_all_objects_for_tenant. intros H. apply bind_inr in H as [p [_ H]].
  exact (assemble_names_NoDup tenant p objs H).
Qed.

Lemma make_all_objects_distinct_names_witness :
  exists objs,
    make_all_objects_for_tenant 739000 (str_of "bdl") (str_of "22:00") (str_of "06:00")
      (Some (str_of "lunes-viernes")) None None NsNone = inr objs /\
    List.length objs = 12%nat /\
    NoDup (map (fun o => md_name (si_metadata o)) objs).
Proof.
  pose (objs := match make_all_objects_for_tenant 739000 (str_of "bdl") (str_of "22:00")
                        (str_of "06:00") (Some (str_of "lunes-viernes")) None None NsNone with
                | inr l => l | inl _ => [] end).
  assert (E : make_all_objects_for_tenant 739000 (str_of "bdl") (str_of "22:00") (str_of "06:00")
                (Some (str_of "lunes-viernes")) None None NsNone = inr objs)
    by (vm_compute; reflexivity).
  exists objs. split; [exact E |]. split; [vm_compute; reflexivity |].
  exact (make_all_objects_distinct_names _ _ _ _ _ _ _ _ objs E).
Defined.

(** ** Rendering the generated objects *)

Lemma serialize_no_letter (d : list Z) :
  Forall (fun n => 0 <= n <= 9) d -> has_letter (serialize_weekdays d) = false.
Proof.
  intros Hr. unfold serialize_weekdays.
  assert (Hc : Forall (fun c => is_regex_letter c = false) (join 44 (map py_str d))).
  { apply Forall_join; [reflexivity |]. apply Forall_map.
    eapply Forall_impl; [| exact Hr]. intros n Hn. cbv beta in Hn.
    rewrite (py_str_digit n Hn). constructor; [apply digit_char_not_letter, Hn | constructor]. }
  unfold has_letter. apply Bool.not_true_iff_false. rewrite existsb_exists.
  intros [c [Hin Hl]]. rewrite Forall_forall in Hc. rewrite (Hc c Hin) in Hl. discriminate.
Qed.

Lemma map_res_ret {A} (f : A -> res A) (l : list A) :
  (forall x, In x l -> f x = inr x) -> map_res f l = inr l.
Proof.
  induction l as [| x l IH]; intros H; [reflexivity |]. simpl.
  rewrite (H x (or_introl eq_refl)). cbn [bind]. rewrite IH; [reflexivity |].
  intros y Hy. apply H. right. exact Hy.
Qed.

(** X15. The weekday re-normalization of [to_yaml_docs] never changes an
    object [make_all_objects_for_tenant] returns: their [weekdays] are
    digits and commas only, with no letter, so the YAML is dumped from the
    objects as generated. *)
Theorem to_yaml_keeps_generated_objects (today : Z) (tenant off_local on_local : pystr)
  (weekdays sleepdays wakedays : option pystr) (arg : ns_arg) (objs : list sleepinfo) :
  make_all_objects_for_tenant today tenant off_local on_local weekdays sleepdays wakedays arg
    = inr objs ->
  Forall (fun o => has_letter (sp_weekdays (si_spec o)) = false) objs /\
  to_yaml_objects objs = inr objs.
Proof.
  intros H.
  assert (Hnl : forall o, In o objs -> has_letter (sp_weekdays (si_spec o)) = false).
  { intros o Ho. destruct (generated_object_canonical _ _ _ _ _ _ _ _ _ o H Ho)
      as [[d [Ed [_ [Hr _]]]] _].
    rewrite Ed. apply serialize_no_letter.
    eapply Forall_impl; [| exact Hr]. cbv beta. intros n Hn. lia. }
  split; [apply Forall_forall, Hnl |].
  unfold to_yaml_objects. apply map_res_ret. intros o Ho.
  unfold to_yaml_normalize. cbv zeta. rewrite (Hnl o Ho). reflexivity.
Qed.

Lemma to_yaml_keeps_generated_objects_witness :
  exists objs,
    make_all_objects_for_tenant 739000 (str_of "bdl") (str_of "22:00") (str_of "06:00")
      (Some (str_of "viernes,domingo")) None None NsNone = inr objs /\
    List.length objs = 12%nat /\
    to_yaml_objects objs = inr objs.
Proof.
  pose (objs := match make_all_objects_for_tenant 739000 (str_of "bdl") (str_of "22:00")
                        (str_of "06:00") (Some (str_of "viernes,domingo")) None None NsNone with
                | inr l => l | inl _ => [] end).
  assert (E : make_all_objects_for_tenant 739000 (str_of "bdl") (str_of "22:00") (str_of "06:00")
                (Some (str_of "viernes,domingo")) None None NsNone = inr objs)
    by (vm_compute; reflexivity).
  exists objs. split; [exact E |]. split; [vm_compute; reflexivity |].
  exact (proj2 (to_yaml_keeps_generated_objects _ _ _ _ _ _ _ _ objs E)).
Defined.

(** ** The deployment check *)

Lemma py_contains_unfold (sub s : pystr) :
  py_contains sub s = starts_with sub s || match s with [] => false | _ :: r => py_contains sub r end.
Proof. destruct s; reflexivity. Qed.

Lemma py_contains_prefix (sub x : pystr) : py_contains sub (sub ++ x) = true.
Proof. rewrite py_contains_unfold, starts_with_app. reflexivity. Qed.

Lemma deployment_reported_spec (d : deployment) :
  deployment_reported d = true ->
  (dp_replicas d = Some 0 \/ dp_readyReplicas d = None \/ dp_readyReplicas d = Some 0) /\
  (forall v, dp_application_id d = Some v ->
     py_contains (str_of "virtualizer") (py_lower v) = false) /\
  (forall m, dp_managed_by d = Some m ->
     py_contains (str_of "postgres-operator") m = false /\
     py_contains (str_of "hdfs-operator") m = false).
Proof.
  unfold deployment_reported. cbv zeta. intros H.
  destruct ((match dp_replicas d with Some r => r | None => 1 end =? 0)
            || (match dp_readyReplicas d with Some r => r | None => 0 end =? 0)) eqn:Z0;
    [| discriminate].
  destruct (py_contains (str_of "virtualizer")
              (py_lower (match dp_application_id d with Some a => a | None => [] end))) eqn:V;
    [discriminate |].
  destruct (py_contains (str_of "postgres-operator")
              (match dp_managed_by d with Some m => m | None => [] end)) eqn:P;
    [discriminate |].
  destruct (py_contains (str_of "hdfs-operator")
              (match dp_managed_by d with Some m => m | None => [] end)) eqn:Hd;
    [discriminate |].
  split; [| split].
  - apply orb_true_iff in Z0. rewrite !Z.eqb_eq in Z0.
    destruct (dp_replicas d) as [r |], (dp_readyReplicas d) as [q |];
      destruct Z0 as [Z0 | Z0]; subst; auto; discriminate.
  - intros v Ev. rewrite Ev in V. exact V.
  - intros m Em. rewrite Em in P, Hd. split; assumption.
Qed.

(** X16. [check_and_wake_deployments] only reports deployments of the
    namespaces [namespaces_for_tenant] lists, each one listed there with
    0 desired replicas or with no ready replica (a missing
    [readyReplicas] counts as none); it never reports a deployment that
    the generated [excludeRef] of a group would exclude through its
    application id label (the virtualizer of apps) or its managed-by
    label (the postgres and hdfs operators). *)
Theorem check_and_wake_reports (deployments_of : pystr -> option (list deployment))
  (tenant : pystr) (sel : ns_arg) (name ns : pystr) :
  In (name, ns) (check_and_wake_deployments deployments_of tenant sel) ->
  In ns (namespaces_for_tenant tenant sel) /\
  exists items d, deployments_of ns = Some items /\ In d items /\ dp_name d = name /\
    (dp_replicas d = Some 0 \/ dp_readyReplicas d = None \/ dp_readyReplicas d = Some 0) /\
    forall g m, In m (match group_excludeRef tenant g with Some l => l | None => [] end) ->
      (lm_key m = str_of "cct.stratio.com/application_id" ->
         dp_application_id d <> Some (lm_value m)) /\
      (lm_key m = str_of "app.kubernetes.io/managed-by" ->
         dp_managed_by d <> Some (lm_value m)).
Proof.
  unfold check_and_wake_deployments. rewrite in_flat_map. intros [ns' [Hns Hin]].
  destruct (deployments_of ns') as [items |] eqn:E; [| destruct Hin].
  apply in_map_iff in Hin. destruct Hin as [d [Ed Hd]]. injection Ed as <- <-.
  apply filter_In in Hd. destruct Hd as [Hd Hr].
  destruct (deployment_reported_spec d Hr) as [Hz [Hv Hm]].
  split; [exact Hns |]. exists items, d. split; [exact E |]. split; [exact Hd |].
  split; [reflexivity |]. split; [exact Hz |].
  intros g m Hmem. unfold group_excludeRef in Hmem.
  destruct (pystr_eqb g (str_of "apps")).
  - destruct Hmem as [<- | []]. cbn [lm_key lm_value]. split.
    + intros _ Ea. specialize (Hv _ Ea). unfold py_lower in Hv; rewrite map_app in Hv.
      change (map py_lower_char (str_of "virtualizer.")) with (str_of "virtualizer" ++ [46]) in Hv.
      rewrite <- app_assoc, py_contains_prefix in Hv. discriminate.
    + intros Ek. discriminate.
  - destruct (pystr_eqb g (str_of "datastores") || pystr_eqb g (str_of "airflowsso"));
      [| destruct Hmem].
    unfold EXCLUDE_PG_HDFS_LABELS in Hmem.
    repeat destruct Hmem as [<- | Hmem]; try destruct Hmem; cbn [lm_key lm_value];
      split; intros Ek; try discriminate; intros Em; specialize (Hm _ Em);
      [ destruct Hm as [Hp _]
      | destruct Hm as [_ Hp] ];
      first [ rewrite <- (app_nil_r (str_of "postgres-operator")), py_contains_prefix in Hp
            | rewrite <- (app_nil_r (str_of "hdfs-operator")), py_contains_prefix in Hp ];
      discriminate.
Qed.

Definition sample_deployments (ns : pystr) : option (list deployment) :=
  if pystr_eqb ns (str_of "bdl-apps")
  then Some [Deployment (str_of "web") (Some 0) None None None;
             Deployment (str_of "api") (Some 2) (Some 2) None None;
             Deployment (str_of "virt") None None (Some (str_of "Virtualizer.bdl-apps")) None;
             Deployment (str_of "pg") (Some 1) (Some 0) None (Some (str_of "postgres-operator"))]
  else None.

Lemma check_and_wake_reports_witness :
  check_and_wake_deployments sample_deployments (str_of "bdl") (NsStr (str_of "apps"))
    = [(str_of "web", str_of "bdl-apps")] /\
  In (str_of "bdl-apps") (namespaces_for_tenant (str_of "bdl") (NsStr (str_of "apps"))).
Proof.
  assert (H : In (str_of "web", str_of "bdl-apps")
                 (check_and_wake_deployments sample_deployments (str_of "bdl")
                    (NsStr (str_of "apps")))) by (vm_compute; left; reflexivity).
  split; [vm_compute; reflexivity |].
  exact (proj1 (check_and_wake_reports _ _ _ _ _ H)).
Defined.
